(** * Universal Video Downloader API (src/main.py): a shallow embedding

    The FastAPI application of [src/main.py] drives the external tool
    [yt-dlp] through the operating system's process interface.  This file
    embeds, function by function,

    - the utility [sanitize_filename],
    - the async generator [stream_yt_dlp],
    - the four POST handlers [get_video_info], [download_video],
      [download_format] and [get_formats],

    and states the properties of the specification over them.

    Python values are modelled as the code sees them: a [str] is a sequence
    of Unicode code points, [bytes] a sequence of bytes, a parsed JSON
    document a tree of [None]/[bool]/[int]/[float]/[str]/[list]/[dict]
    values.  The process interface is an explicit trace of calls threaded
    through a state-and-exception monad. *)

From Stdlib Require Import ZArith NArith Ascii String Floats.SpecFloat.
From stdpp Require Import base option list strings pretty gmap.

Set Warnings "-register-all".

Local Open Scope N_scope.

(** ** Python strings and bytes *)

(** A Unicode code point. *)
Definition char := N.

(** A Python [str]. *)
Definition pystr := list char.

(** A Python [bytes] object. *)
Definition bytes := list Byte.byte.

#[global] Instance byte_eq_dec : EqDecision Byte.byte := Byte.byte_eq_dec.

(** An ASCII literal of the source text, as a [str]. *)
Definition lit (s : string) : pystr :=
  map N_of_ascii (list_ascii_of_string s).

Definition underscore : char := 95.
Definition hyphen : char := 45.
Definition dquote : char := 34.

(** ** Parsed JSON documents, as [json.loads] returns them *)

Inductive json :=
| JNone
| JBool (b : bool)
| JInt (n : Z)
| JFloat (x : spec_float)
| JStr (s : pystr)
| JList (l : list json)
| JDict (d : list (pystr * json)).

(** [dict.get(key, default)]. *)
Fixpoint dict_get (d : list (pystr * json)) (key : pystr) (default : json) : json :=
  match d with
  | [] => default
  | (k, v) :: rest => if decide (k = key) then v else dict_get rest key default
  end.

(** Python truth value testing. *)
Definition truthy (v : json) : bool :=
  match v with
  | JNone => false
  | JBool b => b
  | JInt n => negb (Z.eqb n 0)
  | JFloat (S754_zero _) => false
  | JFloat _ => true
  | JStr s => negb (bool_decide (s = []))
  | JList l => match l with [] => false | _ => true end
  | JDict d => match d with [] => false | _ => true end
  end.

(** [a or b]. *)
Definition py_or (a b : json) : json := if truthy a then a else b.

(** ** The Unicode character classes of the [re] module *)

Section Unicode.

(** [str.isalnum] and [str.isspace] on one code point: the Unicode
    database tables of the interpreter, which the repository does not
    contain. *)
Variable Py_UNICODE_ISALNUM : char -> bool.
Variable Py_UNICODE_ISSPACE : char -> bool.

(** [\w] on a [str] pattern: alphanumeric or the underscore. *)
Definition is_word (c : char) : bool :=
  Py_UNICODE_ISALNUM c || bool_decide (c = underscore).

(** [\s] on a [str] pattern. *)
Definition is_space (c : char) : bool := Py_UNICODE_ISSPACE c.

(** [re.sub(r'[^\w\s-]', '_', s)]: every character outside the class is
    replaced by an underscore. *)
Definition sub_invalid (s : pystr) : pystr :=
  map (fun c => if is_word c || is_space c || bool_decide (c = hyphen)
                then c else underscore) s.

(** [re.sub(r'\s+', '_', s)]: every maximal run of whitespace is replaced
    by one underscore.  [in_run] tells that the previous character
    belonged to the run being replaced. *)
Fixpoint sub_spaces_from (in_run : bool) (s : pystr) : pystr :=
  match s with
  | [] => []
  | c :: rest =>
      if is_space c
      then (if in_run then sub_spaces_from true rest
            else underscore :: sub_spaces_from true rest)
      else c :: sub_spaces_from false rest
  end.

Definition sub_spaces (s : pystr) : pystr := sub_spaces_from false s.

(** [sanitize_filename] (main.py, lines 54-58). *)
Definition sanitize_filename (filename : pystr) : pystr :=
  let filename := sub_invalid filename in
  let filename := sub_spaces filename in
  take 200 filename.

(** [str.strip()]: leading and trailing whitespace removed. *)
Fixpoint lstrip (s : pystr) : pystr :=
  match s with
  | [] => []
  | c :: rest => if is_space c then lstrip rest else s
  end.

Definition strip (s : pystr) : pystr := rev (lstrip (rev (lstrip s))).

End Unicode.

(** ** The response model of /info *)

(** [InfoResponse] (main.py, lines 34-46): the keyword arguments of its
    constructor (lines 179-192) and, once validated, the fields of the
    model. *)
Record InfoResponse := {
  title : json;
  duration : json;
  uploader : json;
  upload_date : json;
  view_count : json;
  like_count : json;
  comment_count : json;
  platform : json;
  thumbnail : json;
  formats_available : nat;
  filesize_approx : json;
  description : json
}.

(** ** Exceptions *)

(** The exceptions the handlers raise or catch.  Each carries what the
    interpreter needs to render [str(e)]. *)
Inductive exception :=
| HTTPException (status_code : Z) (detail : pystr)
| JSONDecodeError (doc : bytes)
| UnicodeDecodeError (data : bytes)
| AttributeError (obj : json) (name : pystr)
| TypeError (obj : json)
| KeyError (key : json)
| IndexError
| OSError (argv : list pystr)
| ValidationError (kwargs : InfoResponse)
| UnicodeEncodeError (s : pystr).

(** A computation of the interpreter that may raise. *)
Definition result (A : Type) : Type := exception + A.

#[global] Instance result_ret : MRet result := fun A x => inr x.

#[global] Instance result_bind : MBind result := fun A B f m =>
  match m with
  | inl e => inl e
  | inr x => f x
  end.

Definition throw {A} (e : exception) : result A := inl e.

(** ** The process interface *)

(** What one run of the external tool does, seen through its pipes: the
    results of the successive reads of its standard output (end of stream
    after the last one), its standard error, and its exit code. *)
Record program_run := {
  out_reads : list bytes;
  err_data : bytes;
  exit_code : Z
}.

(** An [asyncio.subprocess.Process]: owned by the one task that spawned
    it, so it is passed along explicitly. *)
Record process := {
  pid : nat;
  run : program_run;
  unread : list bytes
}.

(** The calls made on the process interface. *)
Inductive syscall :=
| Spawn (argv : list pystr)   (* asyncio.create_subprocess_exec *)
| Communicate (p : nat)       (* process.communicate() *)
| Read (p : nat)              (* process.stdout.read(8192) *)
| Wait (p : nat)              (* process.wait() *)
| Terminate (p : nat)         (* process.terminate() *)
| Kill (p : nat).             (* process.kill() *)

#[global] Instance syscall_eq_dec : EqDecision syscall.
Proof. solve_decision. Defined.

Record os_state := {
  next_pid : nat;
  calls : list syscall
}.

Definition boot : os_state := {| next_pid := 0; calls := [] |}.

(** A computation that makes process calls and may raise. *)
Definition M (A : Type) : Type := os_state -> result A * os_state.

#[global] Instance M_ret : MRet M := fun A x st => (inr x, st).

#[global] Instance M_bind : MBind M := fun A B f m st =>
  match m st with
  | (inl e, st') => (inl e, st')
  | (inr x, st') => f x st'
  end.

Definition raise {A} (e : exception) : M A := fun st => (inl e, st).

Definition lift {A} (r : result A) : M A := fun st => (r, st).

(** [try: body except ...: handler]. *)
Definition try_except {A} (body : M A) (handler : exception -> M A) : M A :=
  fun st =>
    match body st with
    | (inl e, st') => handler e st'
    | (inr x, st') => (inr x, st')
    end.

Definition log (c : syscall) : M unit := fun st =>
  (inr tt, {| next_pid := next_pid st; calls := calls st ++ [c] |}).

Definition fresh_pid : M nat := fun st =>
  (inr (next_pid st), {| next_pid := S (next_pid st); calls := calls st |}).

(** The argument vectors handed to the operating system in a trace. *)
Definition spawned (t : list syscall) : list (list pystr) :=
  omap (fun c => match c with Spawn argv => Some argv | _ => None end) t.

(** The process [p] was sent a signal. *)
Definition signalled (p : nat) (t : list syscall) : Prop :=
  Terminate p ∈ t \/ Kill p ∈ t.

(** The exit status of the process [p] was awaited. *)
Definition reaped (p : nat) (t : list syscall) : Prop :=
  Wait p ∈ t \/ Communicate p ∈ t.

(** ** The interpreter *)

(** The outcome of [json.loads] on a [bytes] object. *)
Inductive loads_result :=
| Loaded (v : json)
| Malformed       (* raises json.JSONDecodeError *)
| Undecodable.    (* raises UnicodeDecodeError *)

(** The parts of the Python runtime the handlers call and the repository
    does not contain. *)
Record runtime := {
  isalnum : char -> bool;                  (* Py_UNICODE_ISALNUM *)
  isspace : char -> bool;                  (* Py_UNICODE_ISSPACE *)
  bytes_decode : bytes -> option pystr;    (* bytes.decode(); None: UnicodeDecodeError *)
  json_loads : bytes -> loads_result;      (* json.loads *)
  exception_str : exception -> pystr;      (* str(e) *)
  InfoResponse_init : InfoResponse -> option InfoResponse
    (* InfoResponse(...): the validated model; None: pydantic raises *)
}.

(** ** Requests and responses *)

(** [DownloadRequest] (main.py, lines 30-32). *)
Record DownloadRequest := {
  videoUrl : pystr;
  quality : option pystr
}.

(** The async generator [stream_yt_dlp] (main.py, lines 76-102), by the
    point its body has reached. *)
Inductive stream_yt_dlp_gen :=
| SYD_created (url quality : pystr)   (* called, body not entered *)
| SYD_at_yield (p : process)          (* suspended at [yield chunk] *)
| SYD_closed.

(** The async generator [stream_output] (main.py, lines 305-310), a closure
    over the process that [download_format] has spawned. *)
Inductive stream_output_gen :=
| SO_created (p : process)
| SO_at_yield (p : process)
| SO_closed.

Inductive body_iterator :=
| StreamYtDlp (g : stream_yt_dlp_gen)
| StreamOutput (g : stream_output_gen).

(** The arguments of the [StreamingResponse] constructor. *)
Record StreamingResponse := {
  body : body_iterator;
  media_type : pystr;
  headers : list (pystr * pystr)
}.

(** [s.encode("latin-1")] succeeds. *)
Definition latin1 (s : pystr) : bool := forallb (fun c => c <? 256) s.

(** The first header name or value that cannot be encoded. *)
Fixpoint first_unencodable (headers : list (pystr * pystr)) : option pystr :=
  match headers with
  | [] => None
  | (k, v) :: rest =>
      if negb (latin1 k) then Some k
      else if negb (latin1 v) then Some v
      else first_unencodable rest
  end.

(** [StreamingResponse(content, media_type=..., headers=...)]: the
    constructor encodes the names and the values of the headers as
    latin-1 and raises [UnicodeEncodeError] when one of them cannot be. *)
Definition new_StreamingResponse (content : body_iterator) (media_type : pystr)
    (headers : list (pystr * pystr)) : result StreamingResponse :=
  match first_unencodable headers with
  | Some s => throw (UnicodeEncodeError s)
  | None =>
      mret {| body := content; media_type := media_type; headers := headers |}
  end.

(** ** The quality table of [download_video] *)

Definition supported_qualities : list pystr :=
  [lit "best"; lit "worst"; lit "720p"; lit "480p"; lit "360p"].

(** [format_map] (main.py, lines 237-243). *)
Definition format_map : gmap pystr pystr :=
  list_to_map
    [(lit "best", lit "best[ext=mp4]/best");
     (lit "worst", lit "worst[ext=mp4]/worst");
     (lit "720p", lit "best[height<=720][ext=mp4]/best[height<=720]");
     (lit "480p", lit "best[height<=480][ext=mp4]/best[height<=480]");
     (lit "360p", lit "best[height<=360][ext=mp4]/best[height<=360]")].

(** Lines 231-245 of [download_video]: [request.quality] is replaced by
    ['best'] unless it is one of the five tiers, then looked up. *)
Definition format_spec_of (quality : option pystr) : pystr :=
  let quality :=
    if bool_decide (quality ∈ Some <$> supported_qualities)
    then quality else Some (lit "best") in
  match quality with
  | Some q => default (lit "best[ext=mp4]/best") (format_map !! q)
  | None => lit "best[ext=mp4]/best"
  end.

(** ** Argument vectors *)

(** [cmd] of [get_video_info] and [cmd_info] of [download_video]. *)
Definition dump_json_cmd (url : pystr) : list pystr :=
  [lit "yt-dlp"; url; lit "--dump-json"; lit "--no-playlist";
   lit "--no-warnings"; lit "--no-call-home"; lit "--no-check-certificate"].

(** [cmd_info] of [download_format] and [cmd] of [get_formats]. *)
Definition dump_json_short_cmd (url : pystr) : list pystr :=
  [lit "yt-dlp"; url; lit "--dump-json"; lit "--no-playlist";
   lit "--no-warnings"].

(** [cmd] of [stream_yt_dlp] (main.py, lines 78-88). *)
Definition stream_yt_dlp_cmd (url quality : pystr) : list pystr :=
  [lit "yt-dlp"; url;
   lit "-f"; quality ++ lit "[ext=mp4]/best[ext=mp4]/best";
   lit "-o"; lit "-";
   lit "--no-playlist"; lit "--no-warnings"; lit "--no-call-home";
   lit "--no-check-certificate"; lit "--prefer-free-formats"].

(** [cmd] of [download_format] (main.py, lines 290-297). *)
Definition download_format_cmd (url format_id : pystr) : list pystr :=
  [lit "yt-dlp"; url; lit "-f"; format_id; lit "-o"; lit "-";
   lit "--no-playlist"; lit "--no-warnings"].

(** The value that follows [-f] in an argument vector. *)
Fixpoint format_argument (argv : list pystr) : option pystr :=
  match argv with
  | [] => None
  | a :: rest =>
      if bool_decide (a = lit "-f") then head rest else format_argument rest
  end.

(** ** Operations of the interpreter *)

(** [obj.get(key, default)]. *)
Definition py_get (obj : json) (key : string) (default : json) : result json :=
  match obj with
  | JDict d => mret (dict_get d (lit key) default)
  | _ => throw (AttributeError obj (lit "get"))
  end.

(** [len(obj)]. *)
Definition py_len (obj : json) : result nat :=
  match obj with
  | JStr s => mret (length s)
  | JList l => mret (length l)
  | JDict d => mret (length d)
  | _ => throw (TypeError obj)
  end.

(** [obj[-1]]. *)
Definition py_last (obj : json) : result json :=
  match obj with
  | JList l => match last l with Some x => mret x | None => throw IndexError end
  | JStr s => match last s with Some c => mret (JStr [c]) | None => throw IndexError end
  | JDict _ => throw (KeyError (JInt (-1)))
  | _ => throw (TypeError obj)
  end.

(** The values a [for] loop over [obj] visits. *)
Definition py_iter (obj : json) : result (list json) :=
  match obj with
  | JList l => mret l
  | JStr s => mret ((fun c => JStr [c]) <$> s)
  | JDict d => mret ((fun kv => JStr (fst kv)) <$> d)
  | _ => throw (TypeError obj)
  end.

(** [obj != s] for a [str] literal [s]. *)
Definition py_ne_str (obj : json) (s : string) : bool :=
  match obj with
  | JStr t => negb (bool_decide (t = lit s))
  | _ => true
  end.

(** The argument of [re.sub] must be a [str]. *)
Definition expect_str (obj : json) : result pystr :=
  match obj with
  | JStr s => mret s
  | _ => throw (TypeError obj)
  end.

(** ** The handlers *)

Section Handlers.

Variable rt : runtime.

(** The operating system: what starting the given argument vector does;
    [None] when the program cannot be started. *)
Variable os_exec : list pystr -> option program_run.

(** *** Process calls *)

Definition create_subprocess_exec (argv : list pystr) : M process :=
  _ ← log (Spawn argv);
  match os_exec argv with
  | None => raise (OSError argv)
  | Some r =>
      p ← fresh_pid;
      mret {| pid := p; run := r; unread := out_reads r |}
  end.

(** [process.communicate()]: both pipes are read to their end and the
    exit is awaited; [process.returncode] is then the exit code. *)
Definition communicate (p : process) : M (bytes * bytes) :=
  _ ← log (Communicate (pid p));
  mret (concat (unread p), err_data (run p)).

Definition returncode (p : process) : Z := exit_code (run p).

(** [process.stdout.read(8192)]: the next chunk, empty at end of stream. *)
Definition stdout_read (p : process) : M (bytes * process) :=
  _ ← log (Read (pid p));
  match unread p with
  | [] => mret ([], p)
  | chunk :: rest =>
      mret (chunk, {| pid := pid p; run := run p; unread := rest |})
  end.

Definition wait (p : process) : M unit := log (Wait (pid p)).

(** *** Calls into the runtime *)

Definition decode (b : bytes) : result pystr :=
  match bytes_decode rt b with
  | Some s => mret s
  | None => throw (UnicodeDecodeError b)
  end.

Definition loads (b : bytes) : result json :=
  match json_loads rt b with
  | Loaded v => mret v
  | Malformed => throw (JSONDecodeError b)
  | Undecodable => throw (UnicodeDecodeError b)
  end.

(** *** [get_video_info] (main.py, lines 135-197) *)

(** Lines 165-172. *)
Definition pick_thumbnail (info : json) : result json :=
  thumbnails ← py_get info "thumbnails" JNone;
  if truthy thumbnails then
    last_one ← py_last thumbnails;
    py_get last_one "url" JNone
  else
    thumbnail ← py_get info "thumbnail" JNone;
    if truthy thumbnail then mret thumbnail else mret JNone.

(** Lines 174-177. A value that is not a [str] and has more than 500
    items cannot be sliced and concatenated with ["..."]. *)
Definition clean_description (info : json) : result json :=
  description ← py_get info "description" (JStr []);
  if truthy description then
    n ← py_len description;
    if bool_decide (500 < n)%nat then
      match description with
      | JStr s => mret (JStr (take 500 s ++ lit "..."))
      | _ => throw (TypeError description)
      end
    else mret description
  else mret description.

(** Lines 165-192: from the parsed document to the arguments of
    [InfoResponse]. *)
Definition info_response (info : json) : result InfoResponse :=
  thumbnail ← pick_thumbnail info;
  description ← clean_description info;
  title ← py_get info "title" (JStr (lit "Unknown Title"));
  duration ← py_get info "duration" JNone;
  uploader ← py_get info "uploader" JNone;
  channel ← py_get info "channel" JNone;
  creator ← py_get info "creator" JNone;
  upload_date ← py_get info "upload_date" JNone;
  view_count ← py_get info "view_count" JNone;
  like_count ← py_get info "like_count" JNone;
  comment_count ← py_get info "comment_count" JNone;
  platform ← py_get info "extractor_key" (JStr (lit "Unknown"));
  formats ← py_get info "formats" (JList []);
  formats_available ← py_len formats;
  filesize_approx ← py_get info "filesize_approx" JNone;
  filesize ← py_get info "filesize" JNone;
  mret {| title := title;
          duration := duration;
          uploader := py_or (py_or uploader channel) creator;
          upload_date := upload_date;
          view_count := view_count;
          like_count := like_count;
          comment_count := comment_count;
          platform := platform;
          thumbnail := thumbnail;
          formats_available := formats_available;
          filesize_approx := py_or filesize_approx filesize;
          description := description |}.

(** [InfoResponse(...)]: pydantic validates the arguments against the
    field types of lines 35-46. *)
Definition new_InfoResponse (kwargs : InfoResponse) : result InfoResponse :=
  match InfoResponse_init rt kwargs with
  | Some response => mret response
  | None => throw (ValidationError kwargs)
  end.

Definition get_video_info_body (request : DownloadRequest) : M InfoResponse :=
  let cmd := dump_json_cmd (videoUrl request) in
  process ← create_subprocess_exec cmd;
  '(stdout, stderr) ← communicate process;
  if bool_decide (returncode process ≠ 0%Z) then
    error_msg ← lift (decode stderr);
    let error_msg := strip (isspace rt) error_msg in
    raise (HTTPException 400 (lit "yt-dlp error: " ++ error_msg))
  else
    info ← lift (loads stdout);
    kwargs ← lift (info_response info);
    lift (new_InfoResponse kwargs).

(** The [try] statement of [get_video_info]: its two [except] clauses
    are [json.JSONDecodeError] and [Exception], and [HTTPException] is
    an [Exception]. *)
Definition get_video_info (request : DownloadRequest) : M InfoResponse :=
  try_except (get_video_info_body request) (fun e =>
    match e with
    | JSONDecodeError _ =>
        raise (HTTPException 500 (lit "Failed to parse video information"))
    | _ => raise (HTTPException 500 (exception_str rt e))
    end).

(** *** [stream_yt_dlp] (main.py, lines 76-102) *)

(** One turn of the [while True] loop, up to the next suspension or to
    the end of the body. *)
Definition stream_yt_dlp_loop (p : process) : M (option bytes * stream_yt_dlp_gen) :=
  '(chunk, p) ← stdout_read p;
  if bool_decide (chunk = []) then
    _ ← wait p;
    mret (None, SYD_closed)
  else mret (Some chunk, SYD_at_yield p).

(** [__anext__]: [None] stands for [StopAsyncIteration]. *)
Definition stream_yt_dlp_next (g : stream_yt_dlp_gen) : M (option bytes * stream_yt_dlp_gen) :=
  match g with
  | SYD_created url quality =>
      process ← create_subprocess_exec (stream_yt_dlp_cmd url quality);
      stream_yt_dlp_loop process
  | SYD_at_yield p => stream_yt_dlp_loop p
  | SYD_closed => mret (None, SYD_closed)
  end.

(** [aclose()]: [GeneratorExit] is raised at the [yield] where the
    generator is suspended. The body has no [try] statement, so the
    exception leaves it at once and no later statement runs. *)
Definition stream_yt_dlp_close (g : stream_yt_dlp_gen) : M stream_yt_dlp_gen :=
  mret SYD_closed.

(** *** [stream_output] (main.py, lines 305-310) *)

Definition stream_output_loop (p : process) : M (option bytes * stream_output_gen) :=
  '(chunk, p) ← stdout_read p;
  if bool_decide (chunk = []) then mret (None, SO_closed)
  else mret (Some chunk, SO_at_yield p).

Definition stream_output_next (g : stream_output_gen) : M (option bytes * stream_output_gen) :=
  match g with
  | SO_created p => stream_output_loop p
  | SO_at_yield p => stream_output_loop p
  | SO_closed => mret (None, SO_closed)
  end.

Definition stream_output_close (g : stream_output_gen) : M stream_output_gen :=
  mret SO_closed.

(** *** [download_video] (main.py, lines 200-264) *)

(** Lines 228 and 287: the sanitized title of the document. *)
Definition sanitized_title (info : json) : result pystr :=
  title ← py_get info "title" (JStr (lit "video"));
  title ← expect_str title;
  mret (sanitize_filename (isalnum rt) (isspace rt) title).

Definition download_video_body (request : DownloadRequest) : M StreamingResponse :=
  let cmd_info := dump_json_cmd (videoUrl request) in
  process_info ← create_subprocess_exec cmd_info;
  '(stdout_info, stderr_info) ← communicate process_info;
  if bool_decide (returncode process_info ≠ 0%Z) then
    error_msg ← lift (decode stderr_info);
    let error_msg := strip (isspace rt) error_msg in
    raise (HTTPException 400 (lit "yt-dlp error: " ++ error_msg))
  else
    info ← lift (loads stdout_info);
    title ← lift (sanitized_title info);
    ext ← lift (py_get info "ext" (JStr (lit "mp4")));
    let format_spec := format_spec_of (quality request) in
    let stream_generator := SYD_created (videoUrl request) format_spec in
    let filename := title ++ lit ".mp4" in
    lift (new_StreamingResponse (StreamYtDlp stream_generator)
            (lit "video/mp4")
            [(lit "Content-Disposition",
              lit "attachment; filename=" ++ [dquote] ++ filename ++ [dquote]);
             (lit "Access-Control-Expose-Headers",
              lit "Content-Disposition")]).

(** [except HTTPException: raise], then [except Exception as e]. *)
Definition download_video (request : DownloadRequest) : M StreamingResponse :=
  try_except (download_video_body request) (fun e =>
    match e with
    | HTTPException _ _ => raise e
    | _ => raise (HTTPException 500 (exception_str rt e))
    end).

(** *** [download_format] (main.py, lines 267-321) *)

Definition download_format_body (request : DownloadRequest) (format_id : pystr)
  : M StreamingResponse :=
  let cmd_info := dump_json_short_cmd (videoUrl request) in
  process_info ← create_subprocess_exec cmd_info;
  '(stdout_info, _) ← communicate process_info;
  info ← lift (loads stdout_info);
  title ← lift (sanitized_title info);
  let cmd := download_format_cmd (videoUrl request) format_id in
  process ← create_subprocess_exec cmd;
  lift (new_StreamingResponse (StreamOutput (SO_created process))
          (lit "video/mp4")
          [(lit "Content-Disposition",
            lit "attachment; filename=" ++ [dquote] ++ title ++ lit ".mp4"
              ++ [dquote])]).

(** The only [except] clause is [Exception]. *)
Definition download_format (request : DownloadRequest) (format_id : pystr)
  : M StreamingResponse :=
  try_except (download_format_body request format_id) (fun e =>
    raise (HTTPException 500 (exception_str rt e))).

(** *** [get_formats] (main.py, lines 324-367) *)

(** Lines 348-358: the dictionary appended for the entry [f]. *)
Definition format_descriptor (f : json) : result json :=
  format_id ← py_get f "format_id" JNone;
  ext ← py_get f "ext" JNone;
  format_note ← py_get f "format_note" JNone;
  quality ← py_get f "quality" JNone;
  filesize ← py_get f "filesize" JNone;
  filesize_approx ← py_get f "filesize_approx" JNone;
  vcodec ← py_get f "vcodec" JNone;
  acodec ← py_get f "acodec" JNone;
  height ← py_get f "height" JNone;
  width ← py_get f "width" JNone;
  fps ← py_get f "fps" JNone;
  mret (JDict
    [(lit "format_id", format_id);
     (lit "ext", ext);
     (lit "quality", py_or (py_or format_note quality) (JStr (lit "Unknown")));
     (lit "filesize", py_or filesize filesize_approx);
     (lit "vcodec", vcodec);
     (lit "acodec", acodec);
     (lit "height", height);
     (lit "width", width);
     (lit "fps", fps)]).

(** Line 347: the condition of the [if]. *)
Definition has_codec (f : json) : result bool :=
  vcodec ← py_get f "vcodec" JNone;
  if py_ne_str vcodec "none" then mret true
  else
    acodec ← py_get f "acodec" JNone;
    mret (py_ne_str acodec "none").

(** Lines 345-358: the [for] loop, [formats] being the list built so
    far. *)
Fixpoint collect_formats (entries : list json) (formats : list json)
  : result (list json) :=
  match entries with
  | [] => mret formats
  | f :: rest =>
      keep ← has_codec f;
      if keep : bool then
        d ← format_descriptor f;
        collect_formats rest (formats ++ [d])
      else collect_formats rest formats
  end.

(** Lines 345-364: from the parsed document to the returned dictionary. *)
Definition formats_response (info : json) : result json :=
  formats_field ← py_get info "formats" (JList []);
  entries ← py_iter formats_field;
  formats ← collect_formats entries [];
  title ← py_get info "title" JNone;
  mret (JDict
    [(lit "title", title);
     (lit "formats", JList formats);
     (lit "format_count", JInt (Z.of_nat (length formats)))]).

Definition get_formats_body (request : DownloadRequest) : M json :=
  let cmd := dump_json_short_cmd (videoUrl request) in
  process ← create_subprocess_exec cmd;
  '(stdout, stderr) ← communicate process;
  info ← lift (loads stdout);
  lift (formats_response info).

Definition get_formats (request : DownloadRequest) : M json :=
  try_except (get_formats_body request) (fun e =>
    raise (HTTPException 500 (exception_str rt e))).

(** *** Sending a streaming body *)

Definition body_next (b : body_iterator) : M (option bytes * body_iterator) :=
  match b with
  | StreamYtDlp g => '(item, g) ← stream_yt_dlp_next g; mret (item, StreamYtDlp g)
  | StreamOutput g => '(item, g) ← stream_output_next g; mret (item, StreamOutput g)
  end.

Definition body_close (b : body_iterator) : M body_iterator :=
  match b with
  | StreamYtDlp g => g ← stream_yt_dlp_close g; mret (StreamYtDlp g)
  | StreamOutput g => g ← stream_output_close g; mret (StreamOutput g)
  end.

(** The framework iterates the body and sends each chunk to the client,
    pulling the next chunk as soon as a send has returned. [accepts] is the
    number of chunks sent before the client's disconnect is noticed: the
    body has then been pulled once more, and its iterator is closed where
    it stands. *)
Fixpoint stream_response (accepts : nat) (b : body_iterator) : M body_iterator :=
  '(item, b) ← body_next b;
  match item with
  | None => mret b
  | Some _ =>
      match accepts with
      | O => body_close b
      | S n => stream_response n b
      end
  end.

(** A whole request: the handler, then the body sent to a client that
    is sent [accepts] chunks. *)
Definition serve_download (request : DownloadRequest) (accepts : nat) : M body_iterator :=
  response ← download_video request;
  stream_response accepts (body response).

Definition serve_download_format (request : DownloadRequest) (format_id : pystr)
    (accepts : nat) : M body_iterator :=
  response ← download_format request format_id;
  stream_response accepts (body response).

End Handlers.

(** ** The routes *)

Inductive endpoint :=
| Info                                 (* POST /info *)
| Download                             (* POST /download *)
| DownloadFormat (format_id : pystr)   (* POST /download/format *)
| Formats.                             (* POST /formats *)

(** A whole request to an endpoint, the body of a streaming response being
    sent to a client that accepts [accepts] chunks. *)
Definition serve (rt : runtime) (os_exec : list pystr -> option program_run)
    (ep : endpoint) (request : DownloadRequest) (accepts : nat) : M unit :=
  match ep with
  | Info => _ ← get_video_info rt os_exec request; mret tt
  | Download => _ ← serve_download rt os_exec request accepts; mret tt
  | DownloadFormat format_id =>
      _ ← serve_download_format rt os_exec request format_id accepts; mret tt
  | Formats => _ ← get_formats rt os_exec request; mret tt
  end.

(** ** A sample interpreter and a sample environment

    Concrete instances on which the handlers are run: the character
    classes and the decoder restricted to ASCII, [json.loads] on the two
    documents below, and a tool that answers the metadata query with one
    of them and streams ten chunks. *)

Module Sample.

Definition ascii_isalnum (c : char) : bool :=
  (48 <=? c) && (c <=? 57) || (65 <=? c) && (c <=? 90)
  || (97 <=? c) && (c <=? 122).

Definition ascii_isspace (c : char) : bool :=
  (9 <=? c) && (c <=? 13) || (28 <=? c) && (c <=? 32).

Definition ascii_decode (b : bytes) : option pystr :=
  if forallb (fun x => Byte.to_N x <? 128) b
  then Some (Byte.to_N <$> b) else None.

(** The text [{"title": "My Clip!", "ext": "mp4"}]. *)
Definition clip_text : bytes :=
  [Byte.x7b; Byte.x22; Byte.x74; Byte.x69; Byte.x74; Byte.x6c; Byte.x65;
   Byte.x22; Byte.x3a; Byte.x20; Byte.x22; Byte.x4d; Byte.x79; Byte.x20;
   Byte.x43; Byte.x6c; Byte.x69; Byte.x70; Byte.x21; Byte.x22; Byte.x2c;
   Byte.x20; Byte.x22; Byte.x65; Byte.x78; Byte.x74; Byte.x22; Byte.x3a;
   Byte.x20; Byte.x22; Byte.x6d; Byte.x70; Byte.x34; Byte.x22; Byte.x7d].

Definition clip_document : json :=
  JDict [(lit "title", JStr (lit "My Clip!")); (lit "ext", JStr (lit "mp4"))].

(** The text
    [{"title": "My Clip!", "formats": [{"format_id": "18", "ext": "mp4",
      "vcodec": "avc1", "acodec": "mp4a", "height": 360},
     {"format_id": "sb0", "ext": "mhtml", "vcodec": "none",
      "acodec": "none"}]}]. *)
Definition formats_text : bytes :=
  [Byte.x7b; Byte.x22; Byte.x74; Byte.x69; Byte.x74; Byte.x6c; Byte.x65;
   Byte.x22; Byte.x3a; Byte.x20; Byte.x22; Byte.x4d; Byte.x79; Byte.x20;
   Byte.x43; Byte.x6c; Byte.x69; Byte.x70; Byte.x21; Byte.x22; Byte.x2c;
   Byte.x20; Byte.x22; Byte.x66; Byte.x6f; Byte.x72; Byte.x6d; Byte.x61;
   Byte.x74; Byte.x73; Byte.x22; Byte.x3a; Byte.x20; Byte.x5b; Byte.x7b;
   Byte.x22; Byte.x66; Byte.x6f; Byte.x72; Byte.x6d; Byte.x61; Byte.x74;
   Byte.x5f; Byte.x69; Byte.x64; Byte.x22; Byte.x3a; Byte.x20; Byte.x22;
   Byte.x31; Byte.x38; Byte.x22; Byte.x2c; Byte.x20; Byte.x22; Byte.x65;
   Byte.x78; Byte.x74; Byte.x22; Byte.x3a; Byte.x20; Byte.x22; Byte.x6d;
   Byte.x70; Byte.x34; Byte.x22; Byte.x2c; Byte.x20; Byte.x22; Byte.x76;
   Byte.x63; Byte.x6f; Byte.x64; Byte.x65; Byte.x63; Byte.x22; Byte.x3a;
   Byte.x20; Byte.x22; Byte.x61; Byte.x76; Byte.x63; Byte.x31; Byte.x22;
   Byte.x2c; Byte.x20; Byte.x22; Byte.x61; Byte.x63; Byte.x6f; Byte.x64;
   Byte.x65; Byte.x63; Byte.x22; Byte.x3a; Byte.x20; Byte.x22; Byte.x6d;
   Byte.x70; Byte.x34; Byte.x61; Byte.x22; Byte.x2c; Byte.x20; Byte.x22;
   Byte.x68; Byte.x65; Byte.x69; Byte.x67; Byte.x68; Byte.x74; Byte.x22;
   Byte.x3a; Byte.x20; Byte.x33; Byte.x36; Byte.x30; Byte.x7d; Byte.x2c;
   Byte.x20; Byte.x7b; Byte.x22; Byte.x66; Byte.x6f; Byte.x72; Byte.x6d;
   Byte.x61; Byte.x74; Byte.x5f; Byte.x69; Byte.x64; Byte.x22; Byte.x3a;
   Byte.x20; Byte.x22; Byte.x73; Byte.x62; Byte.x30; Byte.x22; Byte.x2c;
   Byte.x20; Byte.x22; Byte.x65; Byte.x78; Byte.x74; Byte.x22; Byte.x3a;
   Byte.x20; Byte.x22; Byte.x6d; Byte.x68; Byte.x74; Byte.x6d; Byte.x6c;
   Byte.x22; Byte.x2c; Byte.x20; Byte.x22; Byte.x76; Byte.x63; Byte.x6f;
   Byte.x64; Byte.x65; Byte.x63; Byte.x22; Byte.x3a; Byte.x20; Byte.x22;
   Byte.x6e; Byte.x6f; Byte.x6e; Byte.x65; Byte.x22; Byte.x2c; Byte.x20;
   Byte.x22; Byte.x61; Byte.x63; Byte.x6f; Byte.x64; Byte.x65; Byte.x63;
   Byte.x22; Byte.x3a; Byte.x20; Byte.x22; Byte.x6e; Byte.x6f; Byte.x6e;
   Byte.x65; Byte.x22; Byte.x7d; Byte.x5d; Byte.x7d].

Definition video_entry : json :=
  JDict [(lit "format_id", JStr (lit "18")); (lit "ext", JStr (lit "mp4"));
         (lit "vcodec", JStr (lit "avc1")); (lit "acodec", JStr (lit "mp4a"));
         (lit "height", JInt 360)].

Definition storyboard_entry : json :=
  JDict [(lit "format_id", JStr (lit "sb0")); (lit "ext", JStr (lit "mhtml"));
         (lit "vcodec", JStr (lit "none")); (lit "acodec", JStr (lit "none"))].

Definition formats_document : json :=
  JDict [(lit "title", JStr (lit "My Clip!"));
         (lit "formats", JList [video_entry; storyboard_entry])].

(** [json.loads] on the two texts above; any other input of the samples
    is the empty output of a failed run, which is malformed. *)
Definition sample_loads (b : bytes) : loads_result :=
  if decide (b = clip_text) then Loaded clip_document
  else if decide (b = formats_text) then Loaded formats_document
  else Malformed.

(** A diagnostic that is not valid UTF-8: [ERROR: ], the byte [0xff] and
    a line feed. *)
Definition garbled_diagnostic : bytes :=
  String.list_byte_of_string "ERROR: " ++ [Byte.xff; Byte.x0a].

(** [type(obj).__name__]. *)
Definition type_name (obj : json) : pystr :=
  match obj with
  | JNone => lit "NoneType"
  | JBool _ => lit "bool"
  | JInt _ => lit "int"
  | JFloat _ => lit "float"
  | JStr _ => lit "str"
  | JList _ => lit "list"
  | JDict _ => lit "dict"
  end.

(** [str(e)]: status and detail for an [HTTPException]; the parser's
    message for the two malformed texts of the samples, the empty one and
    a lone brace; the decoder's message for the undecodable diagnostic
    above; the encoder's message for a header with the two characters
    U+65E5 and U+672C in a file name; the interpreter's message for a
    missing attribute; the name of the class stands for the messages of
    the other errors. *)
Definition sample_str (e : exception) : pystr :=
  match e with
  | HTTPException status_code detail =>
      lit (pretty status_code) ++ lit ": " ++ detail
  | JSONDecodeError doc =>
      if decide (doc = []) then lit "Expecting value: line 1 column 1 (char 0)"
      else if decide (doc = [Byte.x7b])
      then lit "Expecting property name enclosed in double quotes: line 1 column 2 (char 1)"
      else lit "JSONDecodeError"
  | UnicodeDecodeError object =>
      if decide (object = garbled_diagnostic)
      then lit "'utf-8' codec can't decode byte 0xff in position 7: invalid start byte"
      else lit "UnicodeDecodeError"
  | AttributeError obj name =>
      [39] ++ type_name obj ++ lit "' object has no attribute '" ++ name ++ [39]
  | TypeError _ => lit "TypeError"
  | KeyError _ => lit "KeyError"
  | IndexError => lit "IndexError"
  | OSError _ => lit "OSError"
  | ValidationError _ => lit "ValidationError"
  | UnicodeEncodeError object =>
      if decide (object
                 = lit "attachment; filename=" ++ [34; 26085; 26412]
                     ++ lit ".mp4" ++ [34])
      then lit "'latin-1' codec can't encode characters in position 22-23: ordinal not in range(256)"
      else lit "UnicodeEncodeError"
  end.

Definition str_or_none (v : json) : bool :=
  match v with JNone | JStr _ => true | _ => false end.

Definition int_or_none (v : json) : bool :=
  match v with JNone | JInt _ => true | _ => false end.

(** A validation of the arguments of [InfoResponse] that accepts the
    values of exactly the declared types (lines 35-46) and leaves them as
    they are. *)
Definition strict_InfoResponse (kwargs : InfoResponse) : option InfoResponse :=
  if match title kwargs with JStr _ => true | _ => false end
     && int_or_none (duration kwargs)
     && str_or_none (uploader kwargs)
     && str_or_none (upload_date kwargs)
     && int_or_none (view_count kwargs)
     && int_or_none (like_count kwargs)
     && int_or_none (comment_count kwargs)
     && match platform kwargs with JStr _ => true | _ => false end
     && str_or_none (thumbnail kwargs)
     && int_or_none (filesize_approx kwargs)
     && str_or_none (description kwargs)
  then Some kwargs else None.

Definition python : runtime :=
  {| isalnum := ascii_isalnum;
     isspace := ascii_isspace;
     bytes_decode := ascii_decode;
     json_loads := sample_loads;
     exception_str := sample_str;
     InfoResponse_init := strict_InfoResponse |}.

Definition is_metadata_query (argv : list pystr) : bool :=
  bool_decide (lit "--dump-json" ∈ argv).

Definition ten_chunks : list bytes :=
  (fun b => [b; b; b; b]) <$>
    [Byte.x00; Byte.x01; Byte.x02; Byte.x03; Byte.x04;
     Byte.x05; Byte.x06; Byte.x07; Byte.x08; Byte.x09].

(** A tool that knows the video: metadata on request, ten chunks of
    payload otherwise. *)
Definition working_tool (argv : list pystr) : option program_run :=
  if is_metadata_query argv
  then Some {| out_reads := [clip_text]; err_data := []; exit_code := 0 |}
  else Some {| out_reads := ten_chunks; err_data := []; exit_code := 0 |}.

(** The same, with the longer metadata document. *)
Definition listing_tool (argv : list pystr) : option program_run :=
  if is_metadata_query argv
  then Some {| out_reads := [formats_text]; err_data := []; exit_code := 0 |}
  else Some {| out_reads := ten_chunks; err_data := []; exit_code := 0 |}.

(** A tool that rejects the locator: exit code 1, nothing on standard
    output, a diagnostic on standard error. *)
Definition failing_tool (argv : list pystr) : option program_run :=
  Some {| out_reads := [];
          err_data :=
            String.list_byte_of_string "ERROR: Unsupported URL" ++ [Byte.x0a];
          exit_code := 1 |}.

Definition request_720p : DownloadRequest :=
  {| videoUrl := lit "https://example.com/v/abc"; quality := Some (lit "720p") |}.

End Sample.

(** * The rest of main.py *)

(** ** [format_duration] (main.py, lines 60-74) *)

(** [str(n)] for an [int]. *)
Definition str_int (n : Z) : pystr := lit (pretty n).

(** [sep.join(parts)]. *)
Fixpoint py_join (sep : pystr) (parts : list pystr) : pystr :=
  match parts with
  | [] => []
  | p :: rest =>
      match rest with
      | [] => p
      | _ :: _ => p ++ sep ++ py_join sep rest
      end
  end.

(** Lines 64-66: [hours], [minutes] and [secs]. Python's [//] and [%]
    round towards minus infinity, as [Z.div] and [Z.modulo] do. *)
Definition duration_fields (seconds : Z) : Z * Z * Z :=
  ((seconds `div` 3600)%Z,
   ((seconds `mod` 3600) `div` 60)%Z,
   (seconds `mod` 60)%Z).

Definition format_duration (seconds : option Z) : pystr :=
  match seconds with
  | None => lit "Unknown"
  | Some seconds =>
      if bool_decide (seconds = 0%Z) then lit "Unknown"
      else
        let '(hours, minutes, secs) := duration_fields seconds in
        let parts : list pystr := [] in
        let parts :=
          if bool_decide (0 < hours)%Z
          then parts ++ [str_int hours ++ lit "h"] else parts in
        let parts :=
          if bool_decide (0 < minutes)%Z
          then parts ++ [str_int minutes ++ lit "m"] else parts in
        let parts :=
          if bool_decide (0 < secs)%Z || bool_decide (parts = [])
          then parts ++ [str_int secs ++ lit "s"] else parts in
        py_join (lit " ") parts
  end.

(** ** [health_check] (main.py, lines 118-132) *)

Section Health.

Variable rt : runtime.
Variable os_exec : list pystr -> option program_run.

(** The decoding [subprocess.run] applies to a captured pipe when
    [text=True]; [None] when it raises. *)
Variable text_mode : bytes -> option pystr.

(** [os.sys.version]. *)
Variable sys_version : pystr.

Definition health_check_cmd : list pystr := [lit "yt-dlp"; lit "--version"].

(** [subprocess.run(cmd, capture_output=True, text=True).stdout]: the
    process is started, both pipes are read to their end and decoded, and
    the exit is awaited; the exit code is not looked at. *)
Definition run_stdout (argv : list pystr) : M pystr :=
  process ← create_subprocess_exec os_exec argv;
  '(stdout, stderr) ← communicate process;
  match text_mode stdout, text_mode stderr with
  | Some out, Some _ => mret out
  | None, _ => raise (UnicodeDecodeError stdout)
  | Some _, None => raise (UnicodeDecodeError stderr)
  end.

(** The bare [except:] catches whatever the [try] block raises. *)
Definition health_check : M json :=
  yt_dlp_version ←
    try_except
      (stdout ← run_stdout health_check_cmd; mret (strip (isspace rt) stdout))
      (fun _ => mret (lit "not found"));
  mret (JDict
    [(lit "status", JStr (lit "healthy"));
     (lit "yt-dlp_version", JStr yt_dlp_version);
     (lit "python_version", JStr sys_version)]).

End Health.

(** ** The chunks a client receives *)

(** The loop of [stream_response], with the chunks it sends, in the order
    the body yields them. *)
Fixpoint send_body (os_exec : list pystr -> option program_run)
    (accepts : nat) (b : body_iterator) : M (list bytes * body_iterator) :=
  '(item, b) ← body_next os_exec b;
  match item with
  | None => mret ([], b)
  | Some chunk =>
      match accepts with
      | O => b ← body_close b; mret ([], b)
      | S n =>
          '(rest, b) ← send_body os_exec n b;
          mret (chunk :: rest, b)
      end
  end.

(** ** More sample environments *)

Module Scenario.

(** A tool that prints the metadata document and the payload, and exits
    with code 1 all the same. *)
Definition grumbling_tool (argv : list pystr) : option program_run :=
  if Sample.is_metadata_query argv
  then Some {| out_reads := [Sample.clip_text]; err_data := []; exit_code := 1 |}
  else Some {| out_reads := Sample.ten_chunks; err_data := []; exit_code := 1 |}.


(** A machine without the tool. *)
Definition no_tool (argv : list pystr) : option program_run := None.

(** A document with a list of thumbnails and a single thumbnail. *)
Definition thumbnails_document : list (pystr * json) :=
  [(lit "thumbnails",
    JList [JDict [(lit "url", JStr (lit "small.jpg"))];
           JDict [(lit "url", JStr (lit "large.jpg"))]]);
   (lit "thumbnail", JStr (lit "single.jpg"))].

(** The text [{"title": null, "formats": [{"format_id": "18"}, "x"]}]. *)
Definition odd_text : bytes :=
  [Byte.x7b; Byte.x22; Byte.x74; Byte.x69; Byte.x74; Byte.x6c; Byte.x65;
   Byte.x22; Byte.x3a; Byte.x20; Byte.x6e; Byte.x75; Byte.x6c; Byte.x6c;
   Byte.x2c; Byte.x20; Byte.x22; Byte.x66; Byte.x6f; Byte.x72; Byte.x6d;
   Byte.x61; Byte.x74; Byte.x73; Byte.x22; Byte.x3a; Byte.x20; Byte.x5b;
   Byte.x7b; Byte.x22; Byte.x66; Byte.x6f; Byte.x72; Byte.x6d; Byte.x61;
   Byte.x74; Byte.x5f; Byte.x69; Byte.x64; Byte.x22; Byte.x3a; Byte.x20;
   Byte.x22; Byte.x31; Byte.x38; Byte.x22; Byte.x7d; Byte.x2c; Byte.x20;
   Byte.x22; Byte.x78; Byte.x22; Byte.x5d; Byte.x7d].

Definition odd_document : list (pystr * json) :=
  [(lit "title", JNone);
   (lit "formats",
    JList [JDict [(lit "format_id", JStr (lit "18"))]; JStr (lit "x")])].

(** The text [{"description": "A clip."}]. *)
Definition brief_text : bytes :=
  [Byte.x7b; Byte.x22; Byte.x64; Byte.x65; Byte.x73; Byte.x63; Byte.x72;
   Byte.x69; Byte.x70; Byte.x74; Byte.x69; Byte.x6f; Byte.x6e; Byte.x22;
   Byte.x3a; Byte.x20; Byte.x22; Byte.x41; Byte.x20; Byte.x63; Byte.x6c;
   Byte.x69; Byte.x70; Byte.x2e; Byte.x22; Byte.x7d].

Definition brief_document : list (pystr * json) :=
  [(lit "description", JStr (lit "A clip."))].

(** The text of a document whose only field is a description of 501
    letters [a]. *)
Definition long_text : bytes :=
  [Byte.x7b; Byte.x22; Byte.x64; Byte.x65; Byte.x73; Byte.x63; Byte.x72;
   Byte.x69; Byte.x70; Byte.x74; Byte.x69; Byte.x6f; Byte.x6e; Byte.x22;
   Byte.x3a; Byte.x20; Byte.x22]
  ++ replicate 501 Byte.x61 ++ [Byte.x22; Byte.x7d].

Definition long_document : list (pystr * json) :=
  [(lit "description", JStr (replicate 501 97))].

(** The text
    [{"title": "My Clip!", "formats": [{"format_id": "18", "ext": "mp4",
      "format_note": "360p", "filesize_approx": 1000, "vcodec": "avc1",
      "acodec": "mp4a"},
     {"format_id": "sb0", "ext": "mhtml", "format_note": "storyboard",
      "vcodec": "none", "acodec": "none"},
     {"format_id": "140", "ext": "m4a", "format_note": "", "quality": 2,
      "filesize": 500, "filesize_approx": 1000, "vcodec": "none",
      "acodec": "mp4a"}]}]. *)
Definition rich_text : bytes :=
  [Byte.x7b; Byte.x22; Byte.x74; Byte.x69; Byte.x74; Byte.x6c; Byte.x65;
   Byte.x22; Byte.x3a; Byte.x20; Byte.x22; Byte.x4d; Byte.x79; Byte.x20;
   Byte.x43; Byte.x6c; Byte.x69; Byte.x70; Byte.x21; Byte.x22; Byte.x2c;
   Byte.x20; Byte.x22; Byte.x66; Byte.x6f; Byte.x72; Byte.x6d; Byte.x61;
   Byte.x74; Byte.x73; Byte.x22; Byte.x3a; Byte.x20; Byte.x5b; Byte.x7b;
   Byte.x22; Byte.x66; Byte.x6f; Byte.x72; Byte.x6d; Byte.x61; Byte.x74;
   Byte.x5f; Byte.x69; Byte.x64; Byte.x22; Byte.x3a; Byte.x20; Byte.x22;
   Byte.x31; Byte.x38; Byte.x22; Byte.x2c; Byte.x20; Byte.x22; Byte.x65;
   Byte.x78; Byte.x74; Byte.x22; Byte.x3a; Byte.x20; Byte.x22; Byte.x6d;
   Byte.x70; Byte.x34; Byte.x22; Byte.x2c; Byte.x20; Byte.x22; Byte.x66;
   Byte.x6f; Byte.x72; Byte.x6d; Byte.x61; Byte.x74; Byte.x5f; Byte.x6e;
   Byte.x6f; Byte.x74; Byte.x65; Byte.x22; Byte.x3a; Byte.x20; Byte.x22;
   Byte.x33; Byte.x36; Byte.x30; Byte.x70; Byte.x22; Byte.x2c; Byte.x20;
   Byte.x22; Byte.x66; Byte.x69; Byte.x6c; Byte.x65; Byte.x73; Byte.x69;
   Byte.x7a; Byte.x65; Byte.x5f; Byte.x61; Byte.x70; Byte.x70; Byte.x72;
   Byte.x6f; Byte.x78; Byte.x22; Byte.x3a; Byte.x20; Byte.x31; Byte.x30;
   Byte.x30; Byte.x30; Byte.x2c; Byte.x20; Byte.x22; Byte.x76; Byte.x63;
   Byte.x6f; Byte.x64; Byte.x65; Byte.x63; Byte.x22; Byte.x3a; Byte.x20;
   Byte.x22; Byte.x61; Byte.x76; Byte.x63; Byte.x31; Byte.x22; Byte.x2c;
   Byte.x20; Byte.x22; Byte.x61; Byte.x63; Byte.x6f; Byte.x64; Byte.x65;
   Byte.x63; Byte.x22; Byte.x3a; Byte.x20; Byte.x22; Byte.x6d; Byte.x70;
   Byte.x34; Byte.x61; Byte.x22; Byte.x7d; Byte.x2c; Byte.x20; Byte.x7b;
   Byte.x22; Byte.x66; Byte.x6f; Byte.x72; Byte.x6d; Byte.x61; Byte.x74;
   Byte.x5f; Byte.x69; Byte.x64; Byte.x22; Byte.x3a; Byte.x20; Byte.x22;
   Byte.x73; Byte.x62; Byte.x30; Byte.x22; Byte.x2c; Byte.x20; Byte.x22;
   Byte.x65; Byte.x78; Byte.x74; Byte.x22; Byte.x3a; Byte.x20; Byte.x22;
   Byte.x6d; Byte.x68; Byte.x74; Byte.x6d; Byte.x6c; Byte.x22; Byte.x2c;
   Byte.x20; Byte.x22; Byte.x66; Byte.x6f; Byte.x72; Byte.x6d; Byte.x61;
   Byte.x74; Byte.x5f; Byte.x6e; Byte.x6f; Byte.x74; Byte.x65; Byte.x22;
   Byte.x3a; Byte.x20; Byte.x22; Byte.x73; Byte.x74; Byte.x6f; Byte.x72;
   Byte.x79; Byte.x62; Byte.x6f; Byte.x61; Byte.x72; Byte.x64; Byte.x22;
   Byte.x2c; Byte.x20; Byte.x22; Byte.x76; Byte.x63; Byte.x6f; Byte.x64;
   Byte.x65; Byte.x63; Byte.x22; Byte.x3a; Byte.x20; Byte.x22; Byte.x6e;
   Byte.x6f; Byte.x6e; Byte.x65; Byte.x22; Byte.x2c; Byte.x20; Byte.x22;
   Byte.x61; Byte.x63; Byte.x6f; Byte.x64; Byte.x65; Byte.x63; Byte.x22;
   Byte.x3a; Byte.x20; Byte.x22; Byte.x6e; Byte.x6f; Byte.x6e; Byte.x65;
   Byte.x22; Byte.x7d; Byte.x2c; Byte.x20; Byte.x7b; Byte.x22; Byte.x66;
   Byte.x6f; Byte.x72; Byte.x6d; Byte.x61; Byte.x74; Byte.x5f; Byte.x69;
   Byte.x64; Byte.x22; Byte.x3a; Byte.x20; Byte.x22; Byte.x31; Byte.x34;
   Byte.x30; Byte.x22; Byte.x2c; Byte.x20; Byte.x22; Byte.x65; Byte.x78;
   Byte.x74; Byte.x22; Byte.x3a; Byte.x20; Byte.x22; Byte.x6d; Byte.x34;
   Byte.x61; Byte.x22; Byte.x2c; Byte.x20; Byte.x22; Byte.x66; Byte.x6f;
   Byte.x72; Byte.x6d; Byte.x61; Byte.x74; Byte.x5f; Byte.x6e; Byte.x6f;
   Byte.x74; Byte.x65; Byte.x22; Byte.x3a; Byte.x20; Byte.x22; Byte.x22;
   Byte.x2c; Byte.x20; Byte.x22; Byte.x71; Byte.x75; Byte.x61; Byte.x6c;
   Byte.x69; Byte.x74; Byte.x79; Byte.x22; Byte.x3a; Byte.x20; Byte.x32;
   Byte.x2c; Byte.x20; Byte.x22; Byte.x66; Byte.x69; Byte.x6c; Byte.x65;
   Byte.x73; Byte.x69; Byte.x7a; Byte.x65; Byte.x22; Byte.x3a; Byte.x20;
   Byte.x35; Byte.x30; Byte.x30; Byte.x2c; Byte.x20; Byte.x22; Byte.x66;
   Byte.x69; Byte.x6c; Byte.x65; Byte.x73; Byte.x69; Byte.x7a; Byte.x65;
   Byte.x5f; Byte.x61; Byte.x70; Byte.x70; Byte.x72; Byte.x6f; Byte.x78;
   Byte.x22; Byte.x3a; Byte.x20; Byte.x31; Byte.x30; Byte.x30; Byte.x30;
   Byte.x2c; Byte.x20; Byte.x22; Byte.x76; Byte.x63; Byte.x6f; Byte.x64;
   Byte.x65; Byte.x63; Byte.x22; Byte.x3a; Byte.x20; Byte.x22; Byte.x6e;
   Byte.x6f; Byte.x6e; Byte.x65; Byte.x22; Byte.x2c; Byte.x20; Byte.x22;
   Byte.x61; Byte.x63; Byte.x6f; Byte.x64; Byte.x65; Byte.x63; Byte.x22;
   Byte.x3a; Byte.x20; Byte.x22; Byte.x6d; Byte.x70; Byte.x34; Byte.x61;
   Byte.x22; Byte.x7d; Byte.x5d; Byte.x7d].

Definition rich_entries : list (list (pystr * json)) :=
  [[(lit "format_id", JStr (lit "18")); (lit "ext", JStr (lit "mp4"));
    (lit "format_note", JStr (lit "360p")); (lit "filesize_approx", JInt 1000);
    (lit "vcodec", JStr (lit "avc1")); (lit "acodec", JStr (lit "mp4a"))];
   [(lit "format_id", JStr (lit "sb0")); (lit "ext", JStr (lit "mhtml"));
    (lit "format_note", JStr (lit "storyboard"));
    (lit "vcodec", JStr (lit "none")); (lit "acodec", JStr (lit "none"))];
   [(lit "format_id", JStr (lit "140")); (lit "ext", JStr (lit "m4a"));
    (lit "format_note", JStr []); (lit "quality", JInt 2);
    (lit "filesize", JInt 500); (lit "filesize_approx", JInt 1000);
    (lit "vcodec", JStr (lit "none")); (lit "acodec", JStr (lit "mp4a"))]].

Definition rich_document : list (pystr * json) :=
  [(lit "title", JStr (lit "My Clip!"));
   (lit "formats", JList (JDict <$> rich_entries))].

(** The text of [{"title": T}], in UTF-8, where [T] is the two characters
    U+65E5 and U+672C. *)
Definition cjk_text : bytes :=
  [Byte.x7b; Byte.x22; Byte.x74; Byte.x69; Byte.x74; Byte.x6c; Byte.x65;
   Byte.x22; Byte.x3a; Byte.x20; Byte.x22; Byte.xe6; Byte.x97; Byte.xa5;
   Byte.xe6; Byte.x9c; Byte.xac; Byte.x22; Byte.x7d].

Definition cjk_document : list (pystr * json) :=
  [(lit "title", JStr [26085; 26412])].

(** An interpreter whose [json.loads] knows these texts as well. *)
Definition python : runtime :=
  {| isalnum := Sample.ascii_isalnum;
     isspace := Sample.ascii_isspace;
     bytes_decode := Sample.ascii_decode;
     json_loads := fun b =>
       if decide (b = odd_text) then Loaded (JDict odd_document)
       else if decide (b = brief_text) then Loaded (JDict brief_document)
       else if decide (b = long_text) then Loaded (JDict long_document)
       else if decide (b = rich_text) then Loaded (JDict rich_document)
       else if decide (b = cjk_text) then Loaded (JDict cjk_document)
       else Sample.sample_loads b;
     exception_str := Sample.sample_str;
     InfoResponse_init := Sample.strict_InfoResponse |}.

(** The same interpreter with the CJK unified ideographs among the
    alphanumeric characters, as the Unicode database has them. *)
Definition cjk_python : runtime :=
  {| isalnum := fun c =>
       Sample.ascii_isalnum c || (19968 <=? c) && (c <=? 40959);
     isspace := Sample.ascii_isspace;
     bytes_decode := Sample.ascii_decode;
     json_loads := json_loads python;
     exception_str := Sample.sample_str;
     InfoResponse_init := Sample.strict_InfoResponse |}.

(** A tool that prints that text. *)
Definition odd_tool (argv : list pystr) : option program_run :=
  Some {| out_reads := [odd_text]; err_data := []; exit_code := 0 |}.

(** Tools that print the other texts. *)
Definition brief_tool (argv : list pystr) : option program_run :=
  Some {| out_reads := [brief_text]; err_data := []; exit_code := 0 |}.

Definition long_tool (argv : list pystr) : option program_run :=
  Some {| out_reads := [long_text]; err_data := []; exit_code := 0 |}.

Definition rich_tool (argv : list pystr) : option program_run :=
  Some {| out_reads := [rich_text]; err_data := []; exit_code := 0 |}.

Definition cjk_tool (argv : list pystr) : option program_run :=
  if Sample.is_metadata_query argv
  then Some {| out_reads := [cjk_text]; err_data := []; exit_code := 0 |}
  else Some {| out_reads := Sample.ten_chunks; err_data := []; exit_code := 0 |}.

(** A tool that rejects the locator with a diagnostic that is not valid
    UTF-8. *)
Definition garbled_tool (argv : list pystr) : option program_run :=
  Some {| out_reads := [];
          err_data := Sample.garbled_diagnostic;
          exit_code := 1 |}.

(** A tool that prints its version. *)
Definition version_tool (argv : list pystr) : option program_run :=
  Some {| out_reads := [String.list_byte_of_string "2024.08.06"; [Byte.x0a]];
          err_data := []; exit_code := 0 |}.

End Scenario.

(** * Vocabulary of the properties *)

(** A character that both substitutions of [sanitize_filename] leave
    alone. *)
Definition settled (alnum space : char -> bool) (c : char) : Prop :=
  is_space space c = false /\
  (is_word alnum c = true \/ c = hyphen).

(** The state after one capture-mode invocation started in [st]. *)
Definition after_capture (argv : list pystr) (st : os_state) : os_state :=
  {| next_pid := S (next_pid st);
     calls := (calls st ++ [Spawn argv]) ++ [Communicate (next_pid st)] |}.

(** A call is allowed when it starts a program whose arguments satisfy
    [Q], or reads from or waits for a process; signals are not. *)
Definition allowed (Q : list pystr -> Prop) (c : syscall) : Prop :=
  match c with
  | Spawn argv => Q argv
  | Terminate _ | Kill _ => False
  | Communicate _ | Read _ | Wait _ => True
  end.

(** Running [m] keeps a trace of allowed calls so. *)
Definition preserves (Q : list pystr -> Prop) {A} (m : M A) : Prop :=
  forall st,
    Forall (allowed Q) (calls st) -> Forall (allowed Q) (calls (snd (m st))).

(** The three arguments of the external collaborator contract. *)
Definition no_playlist : pystr := lit "--no-playlist".
Definition no_warnings : pystr := lit "--no-warnings".
Definition no_check_certificate : pystr := lit "--no-check-certificate".

(** The state after one read from the process [p]. *)
Definition read_logged (p : process) (st : os_state) : os_state :=
  {| next_pid := next_pid st; calls := calls st ++ [Read (pid p)] |}.

(** The entry reported for a source entry with the fields [d]: its
    [format_id], [ext], quality label ([format_note], else [quality], else
    ["Unknown"]), file size ([filesize], else [filesize_approx]), codecs,
    dimensions and frame rate. *)
Definition reported_descriptor (d : list (pystr * json)) : json :=
  let field k := dict_get d (lit k) JNone in
  JDict
    [(lit "format_id", field "format_id");
     (lit "ext", field "ext");
     (lit "quality",
      py_or (py_or (field "format_note") (field "quality")) (JStr (lit "Unknown")));
     (lit "filesize", py_or (field "filesize") (field "filesize_approx"));
     (lit "vcodec", field "vcodec");
     (lit "acodec", field "acodec");
     (lit "height", field "height");
     (lit "width", field "width");
     (lit "fps", field "fps")].

(** A value that stands for a missing one where the specification says
    [x, else y]: [None], [False], a zero, or an empty string, list or
    object. *)
Definition blank (v : json) : bool :=
  match v with
  | JNone | JBool false | JInt Z0 | JFloat (S754_zero _)
  | JStr [] | JList [] | JDict [] => true
  | _ => false
  end.

(** The entry of the /formats list for a source entry with the fields
    [d], in the words of the specification: [format_id], [ext], the
    quality label ([format_note], else [quality], else ["Unknown"]), the
    file size ([filesize], else [filesize_approx]), the codecs, the
    dimensions and the frame rate. *)
Definition listed_entry (d : list (pystr * json)) : json :=
  let field k := dict_get d (lit k) JNone in
  JDict
    [(lit "format_id", field "format_id");
     (lit "ext", field "ext");
     (lit "quality",
      if blank (field "format_note")
      then if blank (field "quality") then JStr (lit "Unknown")
           else field "quality"
      else field "format_note");
     (lit "filesize",
      if blank (field "filesize") then field "filesize_approx"
      else field "filesize");
     (lit "vcodec", field "vcodec");
     (lit "acodec", field "acodec");
     (lit "height", field "height");
     (lit "width", field "width");
     (lit "fps", field "fps")].

(** The value of a codec field is the string ["none"]. *)
Definition is_none_codec (v : json) : bool :=
  match v with
  | JStr s => bool_decide (s = lit "none")
  | _ => false
  end.

(** A metadata-only placeholder: both codec fields are ["none"]. *)
Definition placeholder (d : list (pystr * json)) : bool :=
  is_none_codec (dict_get d (lit "vcodec") JNone)
  && is_none_codec (dict_get d (lit "acodec") JNone).

(** The video codec field or the audio codec field is not ["none"]. *)
Definition carries_codec (d : list (pystr * json)) : Prop :=
  dict_get d (lit "vcodec") JNone <> JStr (lit "none")
  \/ dict_get d (lit "acodec") JNone <> JStr (lit "none").

Definition carries_codecb (d : list (pystr * json)) : bool :=
  py_ne_str (dict_get d (lit "vcodec") JNone) "none"
  || py_ne_str (dict_get d (lit "acodec") JNone) "none".

(** A handler outcome that is a response or an [HTTPException] with
    status 500. *)
Definition ok_or_500 {A} (r : result A) : Prop :=
  match r with
  | inr _ => True
  | inl (HTTPException 500 _) => True
  | inl _ => False
  end.

(** What [health_check] reports as the version of the tool. *)
Definition reported_version (rt : runtime)
    (os_exec : list pystr -> option program_run)
    (text_mode : bytes -> option pystr) : pystr :=
  match os_exec health_check_cmd with
  | None => lit "not found"
  | Some r =>
      match text_mode (concat (out_reads r)), text_mode (err_data r) with
      | Some out, Some _ => strip (isspace rt) out
      | _, _ => lit "not found"
      end
  end.

(** * Properties *)

(** ** [sanitize_filename] *)

Section Sanitize.

Variables alnum space : char -> bool.

Lemma underscore_is_word : is_word alnum underscore = true.
Proof.
  unfold is_word. rewrite bool_decide_eq_true_2 by reflexivity.
  apply orb_true_r.
Qed.

Lemma sub_spaces_from_settled in_run s :
  is_space space underscore = false ->
  Forall (settled alnum space) (sub_spaces_from space in_run (sub_invalid alnum space s)).
Proof.
  intros Hus. revert in_run.
  induction s as [|c s IH]; intros in_run; simpl; [constructor|].
  destruct (is_word alnum c || is_space space c || bool_decide (c = hyphen))
    eqn:Hclass.
  - destruct (is_space space c) eqn:Hsp.
    + destruct in_run; [apply IH|].
      constructor; [|apply IH].
      split; [exact Hus | left; apply underscore_is_word].
    + constructor; [|apply IH].
      split; [exact Hsp|].
      rewrite ?Hsp, orb_false_r in Hclass.
      apply orb_true_iff in Hclass as [Hw | Hh]; [left; exact Hw|].
      right. apply bool_decide_eq_true_1 in Hh. exact Hh.
  - rewrite Hus. constructor; [|apply IH].
    split; [exact Hus | left; apply underscore_is_word].
Qed.

Lemma sub_invalid_settled s :
  Forall (settled alnum space) s -> sub_invalid alnum space s = s.
Proof.
  induction 1 as [|c s [Hsp Hc] _ IH]; simpl; [reflexivity|].
  rewrite IH. f_equal.
  destruct Hc as [Hw | ->].
  - rewrite Hw. reflexivity.
  - rewrite (bool_decide_eq_true_2 (hyphen = hyphen)) by reflexivity.
    rewrite orb_true_r. reflexivity.
Qed.

Lemma sub_spaces_from_settled_id in_run s :
  Forall (settled alnum space) s -> sub_spaces_from space in_run s = s.
Proof.
  intros Hs. revert in_run.
  induction Hs as [|c s [Hsp _] _ IH]; intros in_run; simpl; [reflexivity|].
  rewrite Hsp, IH. reflexivity.
Qed.

Lemma sanitize_filename_settled s :
  is_space space underscore = false ->
  Forall (settled alnum space) (sanitize_filename alnum space s).
Proof.
  intros Hus. unfold sanitize_filename, sub_spaces.
  apply Forall_take, sub_spaces_from_settled, Hus.
Qed.

Lemma sanitize_filename_length s :
  (length (sanitize_filename alnum space s) <= 200)%nat.
Proof. unfold sanitize_filename. rewrite length_take. lia. Qed.

(** C4. When the underscore is not a whitespace character (as in the
    Unicode database), [sanitize_filename] is idempotent, its output has
    at most 200 characters, and every character of the output is a word
    character, the underscore or the hyphen. *)
Theorem sanitize_filename_idempotent_bounded_clean (s : pystr) :
  space underscore = false ->
  sanitize_filename alnum space (sanitize_filename alnum space s)
    = sanitize_filename alnum space s
  /\ (length (sanitize_filename alnum space s) <= 200)%nat
  /\ Forall (fun c => is_word alnum c = true \/ c = underscore \/ c = hyphen)
       (sanitize_filename alnum space s).
Proof.
  intros Hus.
  pose proof (sanitize_filename_settled s Hus) as Hset.
  pose proof (sanitize_filename_length s) as Hlen.
  split; [|split].
  - set (o := sanitize_filename alnum space s) in *.
    unfold sanitize_filename at 1. unfold sub_spaces.
    rewrite (sub_invalid_settled o Hset).
    rewrite (sub_spaces_from_settled_id false o Hset).
    apply take_ge. exact Hlen.
  - exact Hlen.
  - eapply Forall_impl; [exact Hset|].
    intros c [_ [Hw | Hh]]; [left; exact Hw | right; right; exact Hh].
Qed.

End Sanitize.

(** The file name of the specification's scenario. *)
Example sanitize_my_clip :
  sanitize_filename Sample.ascii_isalnum Sample.ascii_isspace (lit "My Clip!")
  = lit "My_Clip_".
Proof. reflexivity. Qed.

Lemma sanitize_filename_idempotent_bounded_clean_witness :
  let f := sanitize_filename Sample.ascii_isalnum Sample.ascii_isspace in
  let s := lit "My  Clip! - (final).mp4" in
  f (f s) = f s
  /\ (length (f s) <= 200)%nat
  /\ Forall (fun c => is_word Sample.ascii_isalnum c = true
                      \/ c = underscore \/ c = hyphen) (f s).
Proof.
  apply (sanitize_filename_idempotent_bounded_clean
           Sample.ascii_isalnum Sample.ascii_isspace
           (lit "My  Clip! - (final).mp4")).
  reflexivity.
Defined.

(** ** The quality table *)

Lemma unsupported_quality (q : pystr) :
  q ∉ supported_qualities ->
  bool_decide (Some q ∈ Some <$> supported_qualities) = false.
Proof.
  intros Hq. apply bool_decide_eq_false_2. intros Hin.
  apply list_elem_of_fmap in Hin as (q' & Heq & Hin).
  injection Heq as ->. exact (Hq Hin).
Qed.

(** C3. The normalisation and lookup of [download_video] is a function on
    strings that sends each of the five tiers to its row of the table and
    every other string to the row of [best]. *)
Theorem format_spec_of_table :
  format_spec_of (Some (lit "best")) = lit "best[ext=mp4]/best"
  /\ format_spec_of (Some (lit "worst")) = lit "worst[ext=mp4]/worst"
  /\ format_spec_of (Some (lit "720p"))
     = lit "best[height<=720][ext=mp4]/best[height<=720]"
  /\ format_spec_of (Some (lit "480p"))
     = lit "best[height<=480][ext=mp4]/best[height<=480]"
  /\ format_spec_of (Some (lit "360p"))
     = lit "best[height<=360][ext=mp4]/best[height<=360]"
  /\ forall q : pystr,
       q ∉ supported_qualities ->
       format_spec_of (Some q) = lit "best[ext=mp4]/best".
Proof.
  repeat split; try reflexivity.
  intros q Hq. unfold format_spec_of.
  rewrite (unsupported_quality q Hq). reflexivity.
Qed.

Lemma format_spec_of_table_witness :
  format_spec_of (Some (lit "1080p")) = lit "best[ext=mp4]/best".
Proof.
  apply format_spec_of_table.
  apply (proj1 (bool_decide_eq_false _)). vm_compute. reflexivity.
Defined.

(** A request without a quality gets the row of [best] as well. *)
Lemma format_spec_of_None : format_spec_of None = lit "best[ext=mp4]/best".
Proof. reflexivity. Qed.

(** ** The format argument of the streaming subprocess *)

Lemma app_nonempty_neq {A} (l k : list A) : k <> [] -> l ++ k <> l.
Proof.
  intros Hk Heq. apply (f_equal length) in Heq.
  rewrite length_app in Heq. destruct k; [congruence | simpl in Heq; lia].
Qed.

(** Whatever it is called with, [stream_yt_dlp] passes its argument with
    a suffix after [-f]. *)
Lemma stream_yt_dlp_cmd_format (url quality : pystr) :
  stream_yt_dlp_cmd url quality !! 2%nat = Some (lit "-f")
  /\ stream_yt_dlp_cmd url quality !! 3%nat
     = Some (quality ++ lit "[ext=mp4]/best[ext=mp4]/best")
  /\ quality ++ lit "[ext=mp4]/best[ext=mp4]/best" <> quality.
Proof.
  repeat split. apply app_nonempty_neq. discriminate.
Qed.

(** C1. On the request of the specification's scenario (tier 720p), the
    two processes started are the metadata query and the streaming
    process, and the value that follows [-f] in the latter is the table's
    expression for 720p followed by [[ext=mp4]/best[ext=mp4]/best]: it is
    not the table's expression. *)
Theorem download_720p_format_argument :
  let t := calls (snd (serve_download Sample.python Sample.working_tool
                         Sample.request_720p 2 boot)) in
  format_argument <$> spawned t
  = [None;
     Some (lit "best[height<=720][ext=mp4]/best[height<=720][ext=mp4]/best[ext=mp4]/best")]
  /\ format_argument <$> spawned t
     <> [None; Some (lit "best[height<=720][ext=mp4]/best[height<=720]")].
Proof. split; [vm_compute; reflexivity | vm_compute; discriminate]. Qed.

(** ** Description truncation *)

(** Lines 174-177 on a document whose description is a string [s]: [s]
    itself when [s] has at most 500 characters, and the first 500
    characters of [s] followed by ["..."] when it has more. *)
Lemma clean_description_truncates (d : list (pystr * json)) (s : pystr) :
  dict_get d (lit "description") (JStr []) = JStr s ->
  ((length s <= 500)%nat -> clean_description (JDict d) = inr (JStr s))
  /\ ((500 < length s)%nat ->
      clean_description (JDict d) = inr (JStr (take 500 s ++ lit "..."))).
Proof.
  intros Hd. unfold clean_description, py_get, mbind, result_bind, mret, result_ret.
  rewrite Hd. simpl.
  split; intros Hlen.
  - destruct s as [|c s]; [reflexivity|]. simpl.
    rewrite bool_decide_eq_false_2 by (simpl in Hlen; lia). reflexivity.
  - destruct s as [|c s]; [simpl in Hlen; lia|]. simpl.
    rewrite bool_decide_eq_true_2 by exact Hlen. reflexivity.
Qed.

Example clean_description_samples :
  clean_description (JDict [(lit "description", JStr (lit "A clip."))])
  = inr (JStr (lit "A clip."))
  /\ clean_description (JDict [(lit "description", JStr (replicate 501 97))])
     = inr (JStr (replicate 500 97 ++ lit "...")).
Proof.
  split.
  - apply (clean_description_truncates
             [(lit "description", JStr (lit "A clip."))] (lit "A clip."));
      [reflexivity | vm_compute; lia].
  - apply (clean_description_truncates
             [(lit "description", JStr (replicate 501 97))] (replicate 501 97));
      [reflexivity | vm_compute; lia].
Defined.

(** ** Failure of the metadata query *)

Ltac run_handler :=
  unfold try_except, create_subprocess_exec, communicate, returncode, decode,
    loads, log, fresh_pid, raise, lift, throw, mbind, M_bind, mret, M_ret;
  simpl.

Section MetadataFailure.

Variable rt : runtime.
Variable os_exec : list pystr -> option program_run.
Variable request : DownloadRequest.
Variable r : program_run.
Variable st : os_state.

Lemma download_video_failure_400 (text : pystr) :
  os_exec (dump_json_cmd (videoUrl request)) = Some r ->
  exit_code r <> 0%Z ->
  bytes_decode rt (err_data r) = Some text ->
  download_video rt os_exec request st
  = (inl (HTTPException 400 (lit "yt-dlp error: " ++ strip (isspace rt) text)),
     after_capture (dump_json_cmd (videoUrl request)) st).
Proof.
  intros Hrun Hcode Htext.
  unfold download_video, download_video_body. run_handler.
  rewrite Hrun. simpl.
  rewrite bool_decide_eq_true_2 by exact Hcode.
  rewrite Htext. reflexivity.
Qed.

(** When the diagnostic is not valid UTF-8, [decode] raises inside the
    [try] and the answer is 500; the streaming process is not started
    either. *)
Lemma download_video_failure_undecodable :
  os_exec (dump_json_cmd (videoUrl request)) = Some r ->
  exit_code r <> 0%Z ->
  bytes_decode rt (err_data r) = None ->
  download_video rt os_exec request st
  = (inl (HTTPException 500 (exception_str rt (UnicodeDecodeError (err_data r)))),
     after_capture (dump_json_cmd (videoUrl request)) st).
Proof.
  intros Hrun Hcode Htext.
  unfold download_video, download_video_body. run_handler.
  rewrite Hrun. simpl.
  rewrite bool_decide_eq_true_2 by exact Hcode.
  rewrite Htext. reflexivity.
Qed.

(** C5. When the metadata query of a /download request exits with a
    non-zero code, the request fails, whatever the client does, and the
    only process started is the metadata query, so the streaming process
    is never spawned. The failure has status 400 and the detail
    ["yt-dlp error: "] followed by the stripped text of the standard
    error when the standard error decodes to a text; when it does not
    decode, the failure has status 500 and the decoder's message. *)
Theorem download_metadata_failure (accepts : nat) :
  os_exec (dump_json_cmd (videoUrl request)) = Some r ->
  exit_code r <> 0%Z ->
  serve_download rt os_exec request accepts st
  = (inl match bytes_decode rt (err_data r) with
         | Some text =>
             HTTPException 400
               (lit "yt-dlp error: " ++ strip (isspace rt) text)
         | None =>
             HTTPException 500
               (exception_str rt (UnicodeDecodeError (err_data r)))
         end,
     after_capture (dump_json_cmd (videoUrl request)) st)
  /\ spawned (calls (after_capture (dump_json_cmd (videoUrl request)) st))
     = spawned (calls st) ++ [dump_json_cmd (videoUrl request)]
  /\ forall quality : pystr,
       stream_yt_dlp_cmd (videoUrl request) quality
       <> dump_json_cmd (videoUrl request).
Proof.
  intros Hrun Hcode. split; [|split].
  - unfold serve_download, mbind, M_bind.
    destruct (bytes_decode rt (err_data r)) as [text|] eqn:Htext.
    + rewrite (download_video_failure_400 text Hrun Hcode Htext). reflexivity.
    + rewrite (download_video_failure_undecodable Hrun Hcode Htext).
      reflexivity.
  - unfold after_capture, spawned. simpl.
    rewrite !omap_app. simpl. rewrite app_nil_r. reflexivity.
  - intros quality Heq. apply (f_equal length) in Heq. discriminate.
Qed.

(** C7. When the metadata query of an /info request exits with a
    non-zero code and its standard error is the text [text], the
    [HTTPException] with status 400 raised in the [try] block is caught
    by the [except Exception] clause of the same statement: the response
    has status 500, and its detail is the rendering of the caught
    exception. *)
Theorem info_metadata_failure_is_500 (text : pystr) :
  os_exec (dump_json_cmd (videoUrl request)) = Some r ->
  exit_code r <> 0%Z ->
  bytes_decode rt (err_data r) = Some text ->
  get_video_info rt os_exec request st
  = (inl (HTTPException 500
            (exception_str rt
               (HTTPException 400
                  (lit "yt-dlp error: " ++ strip (isspace rt) text)))),
     after_capture (dump_json_cmd (videoUrl request)) st).
Proof.
  intros Hrun Hcode Htext.
  unfold get_video_info, get_video_info_body. run_handler.
  rewrite Hrun. simpl.
  rewrite bool_decide_eq_true_2 by exact Hcode.
  rewrite Htext. reflexivity.
Qed.

(** C9. [download_format] does not look at the exit code of its metadata
    query: when the query wrote no well-formed JSON, the response has
    status 500 and carries the parser's message, whatever the exit code
    and the diagnostic were. *)
Theorem download_format_failure_is_500 (format_id : pystr) :
  os_exec (dump_json_short_cmd (videoUrl request)) = Some r ->
  json_loads rt (concat (out_reads r)) = Malformed ->
  download_format rt os_exec request format_id st
  = (inl (HTTPException 500
            (exception_str rt (JSONDecodeError (concat (out_reads r))))),
     after_capture (dump_json_short_cmd (videoUrl request)) st).
Proof.
  intros Hrun Hjson.
  unfold download_format, download_format_body. run_handler.
  rewrite Hrun. simpl. rewrite Hjson. reflexivity.
Qed.

End MetadataFailure.

(** The error responses of [get_video_info] and [download_format] all have
    status 500. *)
Lemma get_video_info_errors_are_500 rt os_exec request st e st' :
  get_video_info rt os_exec request st = (inl e, st') ->
  exists detail, e = HTTPException 500 detail.
Proof.
  unfold get_video_info, try_except.
  destruct (get_video_info_body rt os_exec request st) as [[e0|resp] st0];
    [|discriminate].
  destruct e0; unfold raise; intros [= <- <-]; eauto.
Qed.

Lemma download_format_errors_are_500 rt os_exec request format_id st e st' :
  download_format rt os_exec request format_id st = (inl e, st') ->
  exists detail, e = HTTPException 500 detail.
Proof.
  unfold download_format, try_except.
  destruct (download_format_body rt os_exec request format_id st)
    as [[e0|resp] st0]; [|discriminate].
  unfold raise; intros [= <- <-]; eauto.
Qed.

(** ** Requests that succeed *)

(** The description handed to [InfoResponse] is the one computed by lines
    174-177. *)
Lemma info_response_description info resp :
  info_response info = inr resp ->
  clean_description info = inr (description resp).
Proof.
  unfold info_response.
  destruct (pick_thumbnail info) as [e|thumb]; [discriminate|].
  destruct (clean_description info) as [e|desc]; [discriminate|].
  destruct info; try discriminate.
  unfold py_get. cbn [mbind result_bind mret result_ret].
  destruct (py_len _) as [e|n]; [discriminate|].
  cbn [mbind result_bind mret result_ret].
  intros [= <-]. reflexivity.
Qed.

(** [get_video_info] returns a response only when the metadata query
    exited with code 0 and wrote a document from which lines 165-192
    compute arguments that [InfoResponse] accepts. *)
Lemma get_video_info_success rt os_exec request st resp st' :
  get_video_info rt os_exec request st = (inr resp, st') ->
  exists r info kwargs,
    os_exec (dump_json_cmd (videoUrl request)) = Some r
    /\ exit_code r = 0%Z
    /\ json_loads rt (concat (out_reads r)) = Loaded info
    /\ info_response info = inr kwargs
    /\ InfoResponse_init rt kwargs = Some resp.
Proof.
  unfold get_video_info, get_video_info_body. run_handler.
  destruct (os_exec (dump_json_cmd (videoUrl request))) as [r|] eqn:Hrun; simpl;
    [|discriminate].
  case_bool_decide as Hcode; simpl.
  { destruct (bytes_decode rt (err_data r)); discriminate. }
  destruct (json_loads rt (concat (out_reads r))) as [info| |] eqn:Hjson; simpl;
    try discriminate.
  destruct (info_response info) as [e|kwargs] eqn:Hkwargs; simpl;
    [destruct e; discriminate|].
  unfold new_InfoResponse.
  destruct (InfoResponse_init rt kwargs) as [resp'|] eqn:Hinit; simpl;
    [|discriminate].
  intros [= <- <-]. exists r, info, kwargs. auto.
Qed.

(** C10. Description truncation in /info. The metadata query wrote a
    document whose description is a string [s], and [InfoResponse] hands
    on a description that is a string as it is. Then every response of
    [get_video_info] reports [s] itself when [s] has at most 500
    characters, and exactly the first 500 characters of [s] followed by
    ["..."] when it has more; and [get_video_info] does answer with the
    response that [InfoResponse] makes of the arguments of lines 179-192,
    after the one metadata query. *)
Theorem get_video_info_description (rt : runtime)
    (os_exec : list pystr -> option program_run) (request : DownloadRequest)
    (st : os_state) (r : program_run) (d : list (pystr * json)) (s : pystr) :
  os_exec (dump_json_cmd (videoUrl request)) = Some r ->
  exit_code r = 0%Z ->
  json_loads rt (concat (out_reads r)) = Loaded (JDict d) ->
  dict_get d (lit "description") (JStr []) = JStr s ->
  (forall kwargs resp text,
     InfoResponse_init rt kwargs = Some resp ->
     description kwargs = JStr text -> description resp = JStr text) ->
  (forall resp st',
     get_video_info rt os_exec request st = (inr resp, st') ->
     ((length s <= 500)%nat -> description resp = JStr s)
     /\ ((500 < length s)%nat ->
         description resp = JStr (take 500 s ++ lit "...")))
  /\ (forall kwargs resp,
        info_response (JDict d) = inr kwargs ->
        InfoResponse_init rt kwargs = Some resp ->
        get_video_info rt os_exec request st
        = (inr resp, after_capture (dump_json_cmd (videoUrl request)) st)).
Proof.
  intros Hrun Hcode Hjson Hd Hkeeps. split.
  - intros resp st' Hresp.
    apply get_video_info_success in Hresp
      as (r' & info & kwargs & Hrun' & _ & Hjson' & Hkwargs & Hinit).
    rewrite Hrun in Hrun'. injection Hrun' as <-.
    rewrite Hjson in Hjson'. injection Hjson' as <-.
    apply info_response_description in Hkwargs.
    destruct (clean_description_truncates d s Hd) as [Hshort Hlong].
    split; intros Hlen.
    + rewrite (Hshort Hlen) in Hkwargs. injection Hkwargs as Hkwargs.
      apply (Hkeeps kwargs); [exact Hinit | symmetry; exact Hkwargs].
    + rewrite (Hlong Hlen) in Hkwargs. injection Hkwargs as Hkwargs.
      apply (Hkeeps kwargs); [exact Hinit | symmetry; exact Hkwargs].
  - intros kwargs resp Hkwargs Hinit.
    unfold get_video_info, get_video_info_body. run_handler.
    rewrite Hrun. simpl.
    rewrite bool_decide_eq_false_2 by (intros Hne; exact (Hne Hcode)).
    rewrite Hjson. simpl. rewrite Hkwargs. simpl.
    unfold new_InfoResponse. rewrite Hinit. reflexivity.
Qed.

Lemma get_video_info_description_witness :
  let answer description :=
    {| title := JStr (lit "Unknown Title"); duration := JNone;
       uploader := JNone; upload_date := JNone; view_count := JNone;
       like_count := JNone; comment_count := JNone;
       platform := JStr (lit "Unknown"); thumbnail := JNone;
       formats_available := 0; filesize_approx := JNone;
       description := JStr description |} in
  get_video_info Scenario.python Scenario.long_tool Sample.request_720p boot
  = (inr (answer (replicate 500 97 ++ lit "...")),
     after_capture (dump_json_cmd (videoUrl Sample.request_720p)) boot)
  /\ get_video_info Scenario.python Scenario.brief_tool Sample.request_720p
       boot
     = (inr (answer (lit "A clip.")),
        after_capture (dump_json_cmd (videoUrl Sample.request_720p)) boot).
Proof.
  intros answer. split.
  - destruct (get_video_info_description Scenario.python Scenario.long_tool
                Sample.request_720p boot
                {| out_reads := [Scenario.long_text]; err_data := [];
                   exit_code := 0 |}
                Scenario.long_document (replicate 501 97))
      as [Hdescription Hanswer].
    + reflexivity.
    + reflexivity.
    + vm_compute. reflexivity.
    + reflexivity.
    + intros kwargs resp text Hinit Hkwargs.
      unfold Scenario.python, InfoResponse_init, Sample.strict_InfoResponse
        in Hinit.
      destruct (_ && _) in Hinit; [|discriminate].
      injection Hinit as <-. exact Hkwargs.
    + apply (Hanswer (answer (replicate 500 97 ++ lit "...")));
        vm_compute; reflexivity.
  - destruct (get_video_info_description Scenario.python Scenario.brief_tool
                Sample.request_720p boot
                {| out_reads := [Scenario.brief_text]; err_data := [];
                   exit_code := 0 |}
                Scenario.brief_document (lit "A clip."))
      as [Hdescription Hanswer].
    + reflexivity.
    + reflexivity.
    + vm_compute. reflexivity.
    + reflexivity.
    + intros kwargs resp text Hinit Hkwargs.
      unfold Scenario.python, InfoResponse_init, Sample.strict_InfoResponse
        in Hinit.
      destruct (_ && _) in Hinit; [|discriminate].
      injection Hinit as <-. exact Hkwargs.
    + apply (Hanswer (answer (lit "A clip."))); vm_compute; reflexivity.
Defined.

(** Whenever [download_video] returns a response, its body is the
    generator [stream_yt_dlp(request.videoUrl, format_spec)], not yet
    started. *)
Lemma download_video_success rt os_exec request st resp st' :
  download_video rt os_exec request st = (inr resp, st') ->
  body resp
  = StreamYtDlp (SYD_created (videoUrl request) (format_spec_of (quality request))).
Proof.
  unfold download_video, download_video_body. run_handler.
  destruct (os_exec (dump_json_cmd (videoUrl request))) as [r|]; simpl;
    [|discriminate].
  case_bool_decide as Hcode; simpl.
  { destruct (bytes_decode rt (err_data r)); discriminate. }
  destruct (json_loads rt (concat (out_reads r))) as [info| |]; simpl;
    try discriminate.
  destruct (sanitized_title rt info) as [e|title]; [destruct e; discriminate|].
  destruct (py_get info "ext" _) as [e|ext]; [destruct e; discriminate|].
  simpl. unfold new_StreamingResponse.
  destruct (first_unencodable _); simpl; [discriminate|].
  intros [= <- <-]. reflexivity.
Qed.

(** ** Discipline of the process calls *)

Section Discipline.

(** What every argument vector must satisfy. *)
Variable Q : list pystr -> Prop.

Lemma preserves_ret {A} (x : A) : preserves Q (mret x).
Proof. intros st H. exact H. Qed.

Lemma preserves_raise {A} (e : exception) : preserves Q (@raise A e).
Proof. intros st H. exact H. Qed.

Lemma preserves_bind {A B} (m : M A) (f : A -> M B) :
  preserves Q m -> (forall x, preserves Q (f x)) -> preserves Q (m ≫= f).
Proof.
  intros Hm Hf st H. unfold mbind, M_bind.
  specialize (Hm st H). destruct (m st) as [[e|x] st1]; simpl in *.
  - exact Hm.
  - apply Hf, Hm.
Qed.

Lemma preserves_try_except {A} (m : M A) (h : exception -> M A) :
  preserves Q m -> (forall e, preserves Q (h e)) -> preserves Q (try_except m h).
Proof.
  intros Hm Hh st H. unfold try_except.
  specialize (Hm st H). destruct (m st) as [[e|x] st1]; simpl in *.
  - apply Hh, Hm.
  - exact Hm.
Qed.

Lemma preserves_log (c : syscall) : allowed Q c -> preserves Q (log c).
Proof.
  intros Hc st H. simpl. apply Forall_app. split; [exact H|].
  constructor; [exact Hc | constructor].
Qed.

Lemma preserves_fresh_pid : preserves Q fresh_pid.
Proof. intros st H. exact H. Qed.

Lemma preserves_lift {A} (r : result A) : preserves Q (lift r).
Proof. intros st H. exact H. Qed.

Variable os_exec : list pystr -> option program_run.

Lemma preserves_spawn argv :
  Q argv -> preserves Q (create_subprocess_exec os_exec argv).
Proof.
  intros HQ. unfold create_subprocess_exec.
  apply preserves_bind; [apply preserves_log; exact HQ|].
  intros _. destruct (os_exec argv) as [r|].
  - apply preserves_bind; [apply preserves_fresh_pid|].
    intros n. apply preserves_ret.
  - apply preserves_raise.
Qed.

Lemma preserves_communicate p : preserves Q (communicate p).
Proof.
  unfold communicate. apply preserves_bind; [apply preserves_log; exact I|].
  intros _. apply preserves_ret.
Qed.

Lemma preserves_stdout_read p : preserves Q (stdout_read p).
Proof.
  unfold stdout_read. apply preserves_bind; [apply preserves_log; exact I|].
  intros _. destruct (unread p); apply preserves_ret.
Qed.

Lemma preserves_wait p : preserves Q (wait p).
Proof. apply preserves_log. exact I. Qed.

End Discipline.

Create HintDb discipline.

#[export] Hint Resolve preserves_ret preserves_raise preserves_fresh_pid
  preserves_lift preserves_communicate preserves_stdout_read preserves_wait
  : discipline.

(** One step through a handler's body. *)
Ltac discipline_step :=
  match goal with
  | |- preserves _ (mbind _ _) => apply preserves_bind; [|intros]
  | |- preserves _ (try_except _ _) => apply preserves_try_except; [|intros]
  | |- preserves _ (match ?x with _ => _ end) => destruct x
  | |- preserves _ _ => solve [auto with discipline]
  end.

(** *** The handlers keep the discipline *)

Section HandlersDiscipline.

Variable Q : list pystr -> Prop.
Variable rt : runtime.
Variable os_exec : list pystr -> option program_run.
Variable request : DownloadRequest.

Lemma preserves_get_video_info :
  Q (dump_json_cmd (videoUrl request)) ->
  preserves Q (get_video_info rt os_exec request).
Proof.
  intros HQ. unfold get_video_info, get_video_info_body.
  pose proof (preserves_spawn Q os_exec _ HQ).
  repeat discipline_step.
Qed.

Lemma preserves_download_video :
  Q (dump_json_cmd (videoUrl request)) ->
  preserves Q (download_video rt os_exec request).
Proof.
  intros HQ. unfold download_video, download_video_body.
  pose proof (preserves_spawn Q os_exec _ HQ).
  repeat discipline_step.
Qed.

Lemma preserves_download_format format_id :
  Q (dump_json_short_cmd (videoUrl request)) ->
  Q (download_format_cmd (videoUrl request) format_id) ->
  preserves Q (download_format rt os_exec request format_id).
Proof.
  intros HQ1 HQ2. unfold download_format, download_format_body.
  pose proof (preserves_spawn Q os_exec _ HQ1).
  pose proof (preserves_spawn Q os_exec _ HQ2).
  repeat discipline_step.
Qed.

Lemma preserves_get_formats :
  Q (dump_json_short_cmd (videoUrl request)) ->
  preserves Q (get_formats rt os_exec request).
Proof.
  intros HQ. unfold get_formats, get_formats_body.
  pose proof (preserves_spawn Q os_exec _ HQ).
  repeat discipline_step.
Qed.

(** The streaming generators. *)
Hypothesis Q_stream : forall url quality, Q (stream_yt_dlp_cmd url quality).

Lemma preserves_body_next b : preserves Q (body_next os_exec b).
Proof.
  unfold body_next, stream_yt_dlp_next, stream_yt_dlp_loop,
    stream_output_next, stream_output_loop.
  pose proof (fun url quality =>
                preserves_spawn Q os_exec _ (Q_stream url quality)).
  repeat discipline_step.
Qed.

Lemma preserves_body_close b : preserves Q (body_close b).
Proof.
  unfold body_close, stream_yt_dlp_close, stream_output_close.
  repeat discipline_step.
Qed.

Lemma preserves_stream_response accepts b :
  preserves Q (stream_response os_exec accepts b).
Proof.
  pose proof preserves_body_next. pose proof preserves_body_close.
  revert b. induction accepts as [|n IH]; intros b; simpl;
    repeat discipline_step.
Qed.

Lemma preserves_serve ep accepts :
  Q (dump_json_cmd (videoUrl request)) ->
  (forall format_id,
     ep = DownloadFormat format_id ->
     Q (dump_json_short_cmd (videoUrl request))
     /\ Q (download_format_cmd (videoUrl request) format_id)) ->
  (ep = Formats -> Q (dump_json_short_cmd (videoUrl request))) ->
  preserves Q (serve rt os_exec ep request accepts).
Proof.
  intros Hfull Hfmt Hshort.
  pose proof preserves_stream_response.
  destruct ep as [| |format_id|]; simpl;
    unfold serve_download, serve_download_format.
  - pose proof (preserves_get_video_info Hfull). repeat discipline_step.
  - pose proof (preserves_download_video Hfull). repeat discipline_step.
  - destruct (Hfmt format_id eq_refl) as [H1 H2].
    pose proof (preserves_download_format format_id H1 H2).
    repeat discipline_step.
  - pose proof (preserves_get_formats (Hshort eq_refl)).
    repeat discipline_step.
Qed.

End HandlersDiscipline.

Lemma allowed_spawned (Q : list pystr -> Prop) (t : list syscall) :
  Forall (allowed Q) t -> Forall Q (spawned t).
Proof.
  induction 1 as [|c t Hc _ IH]; [constructor|].
  destruct c; simpl in *; try exact IH. constructor; assumption.
Qed.

Lemma allowed_no_signal (Q : list pystr -> Prop) (t : list syscall) (p : nat) :
  Forall (allowed Q) t -> (Terminate p ∉ t) /\ (Kill p ∉ t).
Proof.
  intros Ht. rewrite Forall_forall in Ht.
  split; intros Hin; exact (Ht _ Hin).
Qed.

(** ** Arguments of the invocations *)

Ltac flag_present := apply list_elem_of_In; simpl; tauto.

Lemma dump_json_cmd_flags url :
  no_playlist ∈ dump_json_cmd url /\ no_warnings ∈ dump_json_cmd url
  /\ no_check_certificate ∈ dump_json_cmd url.
Proof. repeat split; flag_present. Qed.

Lemma stream_yt_dlp_cmd_flags url quality :
  no_playlist ∈ stream_yt_dlp_cmd url quality
  /\ no_warnings ∈ stream_yt_dlp_cmd url quality
  /\ no_check_certificate ∈ stream_yt_dlp_cmd url quality.
Proof. repeat split; flag_present. Qed.

Lemma dump_json_short_cmd_flags url :
  no_playlist ∈ dump_json_short_cmd url /\ no_warnings ∈ dump_json_short_cmd url.
Proof. repeat split; flag_present. Qed.

Lemma download_format_cmd_flags url format_id :
  no_playlist ∈ download_format_cmd url format_id
  /\ no_warnings ∈ download_format_cmd url format_id.
Proof. repeat split; flag_present. Qed.

(** C6. The invocations made for a /formats request and for a
    /download/format request do not carry the three arguments: the
    metadata queries and the streaming process are started with
    [--no-playlist] and [--no-warnings] but without
    [--no-check-certificate]. *)
Theorem formats_invocation_checks_certificates :
  let url := videoUrl Sample.request_720p in
  let formats := spawned (calls (snd (serve Sample.python Sample.listing_tool
                   Formats Sample.request_720p 0 boot))) in
  let download_format := spawned (calls (snd (serve Sample.python
                   Sample.working_tool (DownloadFormat (lit "18"))
                   Sample.request_720p 2 boot))) in
  formats = [dump_json_short_cmd url]
  /\ download_format
     = [dump_json_short_cmd url; download_format_cmd url (lit "18")]
  /\ Forall (fun argv => no_playlist ∈ argv /\ no_warnings ∈ argv
                         /\ no_check_certificate ∉ argv)
       (formats ++ download_format).
Proof.
  split; [vm_compute; reflexivity|].
  split; [vm_compute; reflexivity|].
  apply (bool_decide_unpack _). vm_compute. exact I.
Qed.

(** What does hold of every invocation of the tool by any of the four
    endpoints, in capture and in streaming mode: it carries
    [--no-playlist] and [--no-warnings]; those made for /info and
    /download carry [--no-check-certificate] as well. *)
Lemma invocations_carry_flags (rt : runtime)
    (os_exec : list pystr -> option program_run) (ep : endpoint)
    (request : DownloadRequest) (accepts : nat) :
  let t := spawned (calls (snd (serve rt os_exec ep request accepts boot))) in
  Forall (fun argv => no_playlist ∈ argv /\ no_warnings ∈ argv) t
  /\ match ep with
     | Info | Download => Forall (fun argv => no_check_certificate ∈ argv) t
     | DownloadFormat _ | Formats => True
     end.
Proof.
  split.
  - apply allowed_spawned.
    apply (preserves_serve _ rt os_exec request).
    + intros url quality. split; apply stream_yt_dlp_cmd_flags.
    + split; apply dump_json_cmd_flags.
    + intros format_id _.
      split; split;
        first [apply dump_json_short_cmd_flags | apply download_format_cmd_flags].
    + intros _. split; apply dump_json_short_cmd_flags.
    + apply Forall_nil_2.
  - destruct ep; try exact I; apply allowed_spawned;
      apply (preserves_serve _ rt os_exec request);
      first [ discriminate
            | apply Forall_nil_2
            | intros url quality; apply stream_yt_dlp_cmd_flags
            | apply dump_json_cmd_flags ].
Qed.

(** ** The streaming process and the client *)

(** No endpoint ever sends a signal to a process. *)
Lemma serve_never_signals rt os_exec ep request accepts p :
  ~ signalled p (calls (snd (serve rt os_exec ep request accepts boot))).
Proof.
  assert (Forall (allowed (fun _ => True))
            (calls (snd (serve rt os_exec ep request accepts boot)))) as Hall.
  { apply (preserves_serve (fun _ => True) rt os_exec request); auto. }
  destruct (allowed_no_signal _ _ p Hall) as [Hterm Hkill].
  intros [Hsig | Hsig]; [exact (Hterm Hsig) | exact (Hkill Hsig)].
Qed.

Section Relay.

Variable os_exec : list pystr -> option program_run.

(** One iteration of the framework's loop over a generator suspended at
    its [yield]. *)
Lemma stream_response_resume (n : nat) (p : process) (st : os_state) :
  stream_response os_exec n (StreamYtDlp (SYD_at_yield p)) st
  = match unread p with
    | [] =>
        (inr (StreamYtDlp SYD_closed),
         {| next_pid := next_pid st;
            calls := (calls st ++ [Read (pid p)]) ++ [Wait (pid p)] |})
    | chunk :: rest =>
        if bool_decide (chunk = [])
        then (inr (StreamYtDlp SYD_closed),
              {| next_pid := next_pid st;
                 calls := (calls st ++ [Read (pid p)]) ++ [Wait (pid p)] |})
        else match n with
             | O => (inr (StreamYtDlp SYD_closed), read_logged p st)
             | S n' =>
                 stream_response os_exec n'
                   (StreamYtDlp
                      (SYD_at_yield
                         {| pid := pid p; run := run p; unread := rest |}))
                   (read_logged p st)
             end
    end.
Proof.
  destruct p as [i r [|chunk rest]]; destruct n as [|n]; simpl;
    unfold stream_yt_dlp_loop, stdout_read, wait, log, mbind, M_bind,
      mret, M_ret; simpl; try reflexivity;
    (destruct (decide (chunk = [])) as [Hnil|Hchunk];
     [ rewrite !bool_decide_eq_true_2 by exact Hnil; reflexivity
     | rewrite !bool_decide_eq_false_2 by exact Hchunk; reflexivity ]).
Qed.

(** A client that stays receives every chunk; the end of the stream is
    then read and the process awaited. *)
Lemma relay_to_end_of_stream (n : nat) : forall (p : process) (st : os_state),
  Forall (fun chunk => chunk <> []) (unread p) ->
  (length (unread p) <= n)%nat ->
  stream_response os_exec n (StreamYtDlp (SYD_at_yield p)) st
  = (inr (StreamYtDlp SYD_closed),
     {| next_pid := next_pid st;
        calls := calls st ++ replicate (S (length (unread p))) (Read (pid p))
                   ++ [Wait (pid p)] |}).
Proof.
  induction n as [|n IH]; intros p st Hne Hlen;
    rewrite stream_response_resume;
    destruct (unread p) as [|chunk rest] eqn:Hunread;
    try (simpl; rewrite <- app_assoc; reflexivity).
  - simpl in Hlen. lia.
  - apply Forall_cons in Hne as [Hchunk Hrest]. simpl in Hlen.
    rewrite bool_decide_eq_false_2 by exact Hchunk.
    rewrite IH by (simpl; first [exact Hrest | lia]).
    simpl. rewrite <- app_assoc. reflexivity.
Qed.

(** A client whose disconnect is noticed after [n] chunks were sent,
    before the end of the stream: the body has been pulled once more, the
    generator is closed and nothing more is called. *)
Lemma relay_until_disconnect (n : nat) : forall (p : process) (st : os_state),
  Forall (fun chunk => chunk <> []) (unread p) ->
  (n < length (unread p))%nat ->
  stream_response os_exec n (StreamYtDlp (SYD_at_yield p)) st
  = (inr (StreamYtDlp SYD_closed),
     {| next_pid := next_pid st;
        calls := calls st ++ replicate (S n) (Read (pid p)) |}).
Proof.
  induction n as [|n IH]; intros p st Hne Hlen;
    rewrite stream_response_resume;
    (destruct (unread p) as [|chunk rest] eqn:Hunread; [simpl in Hlen; lia|]);
    apply Forall_cons in Hne as [Hchunk Hrest]; simpl in Hlen;
    rewrite bool_decide_eq_false_2 by exact Hchunk.
  - reflexivity.
  - rewrite IH by (simpl; first [exact Hrest | lia]).
    simpl. rewrite <- app_assoc. reflexivity.
Qed.

(** The first iteration enters the body of [stream_yt_dlp], which starts
    the process. *)
Lemma stream_response_start (n : nat) (url quality : pystr) (r : program_run)
    (st : os_state) :
  os_exec (stream_yt_dlp_cmd url quality) = Some r ->
  stream_response os_exec n (StreamYtDlp (SYD_created url quality)) st
  = stream_response os_exec n
      (StreamYtDlp (SYD_at_yield {| pid := next_pid st; run := r;
                                    unread := out_reads r |}))
      {| next_pid := S (next_pid st);
         calls := calls st ++ [Spawn (stream_yt_dlp_cmd url quality)] |}.
Proof.
  intros Hrun. destruct n; simpl;
    unfold create_subprocess_exec, log, fresh_pid, mbind, M_bind, mret, M_ret;
    simpl; rewrite Hrun; reflexivity.
Qed.

(** C2. No request to /download ever sends a signal to a process,
    whenever the client leaves; the streaming process is awaited, once and
    as the last call, when the client has stayed until the end of the
    stream was read. *)
Theorem relay_reaps_at_end_of_stream (rt : runtime) (request : DownloadRequest)
    (url quality : pystr) (r : program_run) (accepts : nat) (st : os_state) :
  os_exec (stream_yt_dlp_cmd url quality) = Some r ->
  Forall (fun chunk => chunk <> []) (out_reads r) ->
  (length (out_reads r) < accepts)%nat ->
  (forall k p,
     ~ signalled p (calls (snd (serve rt os_exec Download request k boot))))
  /\ stream_response os_exec accepts (StreamYtDlp (SYD_created url quality)) st
     = (inr (StreamYtDlp SYD_closed),
        {| next_pid := S (next_pid st);
           calls := (calls st ++ [Spawn (stream_yt_dlp_cmd url quality)])
                      ++ replicate (S (length (out_reads r))) (Read (next_pid st))
                      ++ [Wait (next_pid st)] |}).
Proof.
  intros Hrun Hne Hlen. split.
  - intros k p. apply serve_never_signals.
  - rewrite (stream_response_start accepts url quality r st Hrun).
    rewrite relay_to_end_of_stream by (simpl; first [exact Hne | lia]).
    reflexivity.
Qed.

End Relay.

(** The scenario of the specification, where C2 as stated fails: the
    client leaves after two of the ten chunks. The streaming process
    (number 1) has been read from three times, twice for the chunks sent
    and once more for the chunk pulled after the second send; it is
    neither signalled nor awaited. *)
Lemma disconnect_after_two_chunks :
  let t := calls (snd (serve_download Sample.python Sample.working_tool
                         Sample.request_720p 2 boot)) in
  t = [Spawn (dump_json_cmd (videoUrl Sample.request_720p));
       Communicate 0;
       Spawn (stream_yt_dlp_cmd (videoUrl Sample.request_720p)
                (lit "best[height<=720][ext=mp4]/best[height<=720]"));
       Read 1; Read 1; Read 1]
  /\ ~ signalled 1 t /\ ~ reaped 1 t.
Proof.
  split; [vm_compute; reflexivity|].
  unfold signalled, reaped.
  split; apply (proj1 (bool_decide_eq_false _)); vm_compute; reflexivity.
Qed.

Lemma relay_reaps_at_end_of_stream_witness :
  let url := videoUrl Sample.request_720p in
  let quality := lit "best[ext=mp4]/best" in
  (forall k p,
     ~ signalled p
         (calls (snd (serve Sample.python Sample.working_tool Download
                        Sample.request_720p k boot))))
  /\ stream_response Sample.working_tool 11
       (StreamYtDlp (SYD_created url quality)) boot
     = (inr (StreamYtDlp SYD_closed),
        {| next_pid := 1;
           calls := [Spawn (stream_yt_dlp_cmd url quality)]
                      ++ replicate 11 (Read 0) ++ [Wait 0] |}).
Proof.
  apply (relay_reaps_at_end_of_stream Sample.working_tool Sample.python
           Sample.request_720p
           (videoUrl Sample.request_720p) (lit "best[ext=mp4]/best")
           {| out_reads := Sample.ten_chunks; err_data := []; exit_code := 0 |}
           11 boot).
  - reflexivity.
  - vm_compute. repeat constructor; discriminate.
  - vm_compute. lia.
Defined.

(** ** The format list *)

Lemma py_ne_str_spec (v : json) (s : string) :
  py_ne_str v s = true <-> v <> JStr (lit s).
Proof.
  destruct v; simpl; try (split; [discriminate | reflexivity]).
  rewrite negb_true_iff, bool_decide_eq_false. split.
  - intros Hne [= Heq]. exact (Hne Heq).
  - intros Hne Heq. apply Hne. rewrite Heq. reflexivity.
Qed.

Lemma carries_codecb_spec d : carries_codecb d = true <-> carries_codec d.
Proof.
  unfold carries_codecb, carries_codec.
  rewrite orb_true_iff, !py_ne_str_spec. reflexivity.
Qed.

Lemma has_codec_dict d : has_codec (JDict d) = inr (carries_codecb d).
Proof.
  unfold has_codec, carries_codecb, py_get, mbind, result_bind, mret, result_ret.
  destruct (py_ne_str (dict_get d (lit "vcodec") JNone) "none"); reflexivity.
Qed.

Lemma format_descriptor_dict d :
  format_descriptor (JDict d) = inr (reported_descriptor d).
Proof. reflexivity. Qed.

Lemma collect_formats_dicts ds : forall formats,
  collect_formats (JDict <$> ds) formats
  = inr (formats ++ (reported_descriptor <$> List.filter carries_codecb ds)).
Proof.
  induction ds as [|d ds IH]; intros formats.
  - simpl. rewrite app_nil_r. reflexivity.
  - change (collect_formats (JDict <$> d :: ds) formats)
      with (has_codec (JDict d) ≫= fun keep : bool =>
            if keep
            then format_descriptor (JDict d) ≫= fun d' =>
                 collect_formats (JDict <$> ds) (formats ++ [d'])
            else collect_formats (JDict <$> ds) formats).
    rewrite has_codec_dict, format_descriptor_dict.
    cbn [List.filter mbind result_bind].
    destruct (carries_codecb d).
    + rewrite IH, <- app_assoc. reflexivity.
    + apply IH.
Qed.

Lemma reported_descriptor_codec d d' :
  reported_descriptor d = reported_descriptor d' ->
  carries_codecb d = carries_codecb d'.
Proof.
  unfold reported_descriptor, carries_codecb.
  intros [= _ _ _ _ Hv Ha _ _ _]. rewrite Hv, Ha. reflexivity.
Qed.

(** The answer of /formats in terms of the dictionaries that lines
    348-358 build. *)
Lemma get_formats_on_objects (rt : runtime)
    (os_exec : list pystr -> option program_run) (request : DownloadRequest)
    (st : os_state) (r : program_run) (info : list (pystr * json))
    (ds : list (list (pystr * json))) :
  os_exec (dump_json_short_cmd (videoUrl request)) = Some r ->
  json_loads rt (concat (out_reads r)) = Loaded (JDict info) ->
  dict_get info (lit "formats") (JList []) = JList (JDict <$> ds) ->
  let formats := reported_descriptor <$> List.filter carries_codecb ds in
  get_formats rt os_exec request st
  = (inr (JDict [(lit "title", dict_get info (lit "title") JNone);
                 (lit "formats", JList formats);
                 (lit "format_count", JInt (Z.of_nat (length formats)))]),
     after_capture (dump_json_short_cmd (videoUrl request)) st)
  /\ forall d, d ∈ ds -> (reported_descriptor d ∈ formats <-> carries_codec d).
Proof.
  intros Hrun Hjson Hformats formats. split.
  - unfold get_formats, get_formats_body. run_handler.
    rewrite Hrun. simpl. rewrite Hjson. simpl.
    unfold formats_response, py_get, py_iter, mbind, result_bind, mret,
      result_ret.
    rewrite Hformats. rewrite collect_formats_dicts. reflexivity.
  - intros d Hd. rewrite <- carries_codecb_spec. unfold formats. split.
    + intros Hin. apply list_elem_of_fmap in Hin as (d' & Heq & Hin).
      apply list_elem_of_In, filter_In in Hin as [_ Hkeep].
      rewrite (reported_descriptor_codec d d' Heq). exact Hkeep.
    + intros Hkeep. apply list_elem_of_fmap. exists d. split; [reflexivity|].
      apply list_elem_of_In, filter_In. split; [|exact Hkeep].
      apply list_elem_of_In. exact Hd.
Qed.

Lemma truthy_blank (v : json) : truthy v = negb (blank v).
Proof.
  destruct v as [|[]|[]|[]|[]|[]|[]]; reflexivity.
Qed.

Lemma py_or_blank (a b : json) : py_or a b = if blank a then b else a.
Proof. unfold py_or. rewrite truthy_blank. destruct (blank a); reflexivity. Qed.

Lemma reported_descriptor_listed d : reported_descriptor d = listed_entry d.
Proof.
  unfold reported_descriptor, listed_entry. rewrite !py_or_blank.
  destruct (blank (dict_get d (lit "format_note") JNone)) eqn:Hnote;
    [reflexivity | rewrite Hnote; reflexivity].
Qed.

Lemma carries_codecb_placeholder d : carries_codecb d = negb (placeholder d).
Proof.
  unfold carries_codecb, placeholder.
  destruct (dict_get d (lit "vcodec") JNone) as [| | | |v| |],
           (dict_get d (lit "acodec") JNone) as [| | | |a| |];
    try reflexivity; simpl;
    try destruct (bool_decide (v = lit "none"));
    try destruct (bool_decide (a = lit "none")); reflexivity.
Qed.

Lemma listed_entries ds :
  reported_descriptor <$> List.filter carries_codecb ds
  = listed_entry <$> List.filter (fun d => negb (placeholder d)) ds.
Proof.
  induction ds as [|d ds IH]; [reflexivity|].
  cbn [List.filter]. rewrite <- carries_codecb_placeholder.
  destruct (carries_codecb d); [|exact IH].
  rewrite !fmap_cons, IH, reported_descriptor_listed. reflexivity.
Qed.

(** C8. For a metadata document [info] whose [formats] field is a list of
    objects [ds], /formats answers with the title, the list of the
    entries of [ds] that are not placeholders, in their order, each
    reported with its [format_id], [ext], quality label ([format_note],
    else [quality], else ["Unknown"]), file size ([filesize], else
    [filesize_approx]), codecs, dimensions and frame rate, and with the
    length of that list; and the report of an entry of the document is in
    the list if and only if its video codec field is not ["none"] or its
    audio codec field is not ["none"]. *)
Theorem get_formats_lists_entries_with_codec (rt : runtime)
    (os_exec : list pystr -> option program_run) (request : DownloadRequest)
    (st : os_state) (r : program_run) (info : list (pystr * json))
    (ds : list (list (pystr * json))) :
  os_exec (dump_json_short_cmd (videoUrl request)) = Some r ->
  json_loads rt (concat (out_reads r)) = Loaded (JDict info) ->
  dict_get info (lit "formats") (JList []) = JList (JDict <$> ds) ->
  let formats := listed_entry <$> List.filter (fun d => negb (placeholder d)) ds in
  get_formats rt os_exec request st
  = (inr (JDict [(lit "title", dict_get info (lit "title") JNone);
                 (lit "formats", JList formats);
                 (lit "format_count", JInt (Z.of_nat (length formats)))]),
     after_capture (dump_json_short_cmd (videoUrl request)) st)
  /\ forall d, d ∈ ds -> (listed_entry d ∈ formats <-> carries_codec d).
Proof.
  intros Hrun Hjson Hformats formats.
  destruct (get_formats_on_objects rt os_exec request st r info ds
              Hrun Hjson Hformats) as [Hanswer Hiff].
  cbv zeta in Hanswer, Hiff. rewrite listed_entries in Hanswer, Hiff.
  split; [exact Hanswer|].
  intros d Hd. rewrite <- reported_descriptor_listed. exact (Hiff d Hd).
Qed.

Lemma get_formats_lists_entries_with_codec_witness :
  get_formats Scenario.python Scenario.rich_tool Sample.request_720p boot
  = (inr (JDict
            [(lit "title", JStr (lit "My Clip!"));
             (lit "formats",
              JList
                [JDict [(lit "format_id", JStr (lit "18"));
                        (lit "ext", JStr (lit "mp4"));
                        (lit "quality", JStr (lit "360p"));
                        (lit "filesize", JInt 1000);
                        (lit "vcodec", JStr (lit "avc1"));
                        (lit "acodec", JStr (lit "mp4a"));
                        (lit "height", JNone);
                        (lit "width", JNone);
                        (lit "fps", JNone)];
                 JDict [(lit "format_id", JStr (lit "140"));
                        (lit "ext", JStr (lit "m4a"));
                        (lit "quality", JInt 2);
                        (lit "filesize", JInt 500);
                        (lit "vcodec", JStr (lit "none"));
                        (lit "acodec", JStr (lit "mp4a"));
                        (lit "height", JNone);
                        (lit "width", JNone);
                        (lit "fps", JNone)]]);
             (lit "format_count", JInt 2)]),
     after_capture (dump_json_short_cmd (videoUrl Sample.request_720p)) boot).
Proof.
  apply (get_formats_lists_entries_with_codec Scenario.python
           Scenario.rich_tool Sample.request_720p boot
           {| out_reads := [Scenario.rich_text]; err_data := []; exit_code := 0 |}
           Scenario.rich_document Scenario.rich_entries);
    vm_compute; reflexivity.
Defined.

(** A document for which C8 as stated fails: its format list is an object
    without codec fields, which carries a codec in the sense of line 347,
    followed by a string. The loop raises at the string, and /formats
    answers with status 500 and no list at all. *)
Lemma formats_with_a_string_entry :
  json_loads Scenario.python
    (concat [Scenario.odd_text])
  = Loaded
      (JDict [(lit "title", JNone);
              (lit "formats",
               JList [JDict [(lit "format_id", JStr (lit "18"))];
                      JStr (lit "x")])])
  /\ carries_codec [(lit "format_id", JStr (lit "18"))]
  /\ get_formats Scenario.python Scenario.odd_tool Sample.request_720p boot
     = (inl (HTTPException 500 (lit "'str' object has no attribute 'get'")),
        after_capture (dump_json_short_cmd (videoUrl Sample.request_720p))
          boot).
Proof.
  split; [vm_compute; reflexivity|]. split.
  - left. discriminate.
  - vm_compute. reflexivity.
Qed.

(** ** The failing tool of the specification's scenario *)

Lemma download_metadata_failure_witness :
  serve_download Sample.python Sample.failing_tool Sample.request_720p 2 boot
  = (inl (HTTPException 400 (lit "yt-dlp error: ERROR: Unsupported URL")),
     after_capture (dump_json_cmd (videoUrl Sample.request_720p)) boot)
  /\ spawned (calls (after_capture (dump_json_cmd (videoUrl Sample.request_720p)) boot))
     = spawned (calls boot) ++ [dump_json_cmd (videoUrl Sample.request_720p)]
  /\ forall quality : pystr,
       stream_yt_dlp_cmd (videoUrl Sample.request_720p) quality
       <> dump_json_cmd (videoUrl Sample.request_720p).
Proof.
  apply (download_metadata_failure Sample.python Sample.failing_tool
           Sample.request_720p
           {| out_reads := [];
              err_data := String.list_byte_of_string "ERROR: Unsupported URL"
                            ++ [Byte.x0a];
              exit_code := 1 |}
           boot 2).
  - reflexivity.
  - simpl. lia.
Defined.

(** A request for which C5 as stated fails: the metadata query exits with
    code 1 and a diagnostic that is not valid UTF-8. Decoding it raises
    inside the [try] block, and the response of /download has status 500,
    not 400. *)
Lemma download_garbled_diagnostic :
  Scenario.garbled_tool (dump_json_cmd (videoUrl Sample.request_720p))
  = Some {| out_reads := [];
            err_data := String.list_byte_of_string "ERROR: "
                          ++ [Byte.xff; Byte.x0a];
            exit_code := 1 |}
  /\ serve_download Scenario.python Scenario.garbled_tool
       Sample.request_720p 2 boot
     = (inl (HTTPException 500
               (lit "'utf-8' codec can't decode byte 0xff in position 7: invalid start byte")),
        after_capture (dump_json_cmd (videoUrl Sample.request_720p)) boot).
Proof. split; vm_compute; reflexivity. Qed.

Lemma info_metadata_failure_is_500_witness :
  get_video_info Sample.python Sample.failing_tool Sample.request_720p boot
  = (inl (HTTPException 500 (lit "400: yt-dlp error: ERROR: Unsupported URL")),
     after_capture (dump_json_cmd (videoUrl Sample.request_720p)) boot).
Proof.
  apply (info_metadata_failure_is_500 Sample.python Sample.failing_tool
           Sample.request_720p
           {| out_reads := [];
              err_data := String.list_byte_of_string "ERROR: Unsupported URL"
                            ++ [Byte.x0a];
              exit_code := 1 |}
           boot (lit "ERROR: Unsupported URL" ++ [10])).
  - reflexivity.
  - simpl. lia.
  - vm_compute. reflexivity.
Defined.

Lemma download_format_failure_is_500_witness :
  download_format Sample.python Sample.failing_tool Sample.request_720p
    (lit "18") boot
  = (inl (HTTPException 500 (lit "Expecting value: line 1 column 1 (char 0)")),
     after_capture (dump_json_short_cmd (videoUrl Sample.request_720p)) boot).
Proof.
  apply (download_format_failure_is_500 Sample.python Sample.failing_tool
           Sample.request_720p
           {| out_reads := [];
              err_data := String.list_byte_of_string "ERROR: Unsupported URL"
                            ++ [Byte.x0a];
              exit_code := 1 |}
           boot (lit "18")).
  - reflexivity.
  - vm_compute. reflexivity.
Defined.

(** * Further properties of main.py *)

(** ** [format_duration] *)

(** The fields of a number of seconds, of any sign, recompose to it, and
    the minutes and the seconds lie between 0 and 59. *)
Theorem duration_fields_sound (seconds : Z) :
  (fst (fst (duration_fields seconds)) * 3600
   + snd (fst (duration_fields seconds)) * 60
   + snd (duration_fields seconds) = seconds)%Z
  /\ (0 <= snd (fst (duration_fields seconds)) < 60)%Z
  /\ (0 <= snd (duration_fields seconds) < 60)%Z.
Proof. unfold duration_fields. simpl. Z.div_mod_to_equations. lia. Qed.

Lemma py_join_snoc (sep : pystr) (parts : list pystr) (p : pystr) (c : char) :
  last (py_join sep (parts ++ [p ++ [c]])) = Some c.
Proof.
  induction parts as [|q parts IH].
  - simpl. apply last_snoc.
  - change (py_join sep ((q :: parts) ++ [p ++ [c]]))
      with (match parts ++ [p ++ [c]] with
            | [] => q
            | _ :: _ => q ++ sep ++ py_join sep (parts ++ [p ++ [c]])
            end).
    destruct (parts ++ [p ++ [c]]) as [|x rest] eqn:Hparts.
    + destruct parts; discriminate.
    + rewrite !last_app, IH. reflexivity.
Qed.

(** The rendering of a non-zero number of seconds ends with a unit. *)
Lemma format_duration_unit (seconds : Z) :
  seconds <> 0%Z ->
  exists c, last (format_duration (Some seconds)) = Some c
            /\ (c = 104 \/ c = 109 \/ c = 115).
Proof.
  intros Hnz. unfold format_duration.
  rewrite bool_decide_eq_false_2 by exact Hnz.
  destruct (duration_fields seconds) as [[hours minutes] secs].
  change (lit "h") with [104]. change (lit "m") with [109].
  change (lit "s") with [115].
  repeat case_bool_decide; simpl orb; cbv iota; simplify_eq;
    try (destruct (_ ++ _); discriminate);
    first [ exists 115; split; [|tauto];
            first [apply (py_join_snoc _ []) | apply (py_join_snoc _ [_])
                  | apply (py_join_snoc _ [_; _])]
          | exists 109; split; [|tauto];
            first [apply (py_join_snoc _ []) | apply (py_join_snoc _ [_])]
          | exists 104; split; [|tauto]; apply (py_join_snoc _ []) ].
Qed.

(** [format_duration] answers ["Unknown"] for a missing duration and for
    a duration of zero seconds, and for no other. *)
Theorem format_duration_unknown_iff (seconds : option Z) :
  format_duration seconds = lit "Unknown"
  <-> seconds = None \/ seconds = Some 0%Z.
Proof.
  split.
  - destruct seconds as [s|]; [|tauto].
    destruct (decide (s = 0%Z)) as [->|Hnz]; [tauto|].
    intros Heq. destruct (format_duration_unit s Hnz) as (c & Hlast & Hc).
    rewrite Heq in Hlast. vm_compute in Hlast.
    injection Hlast as <-. destruct Hc as [Hc|[Hc|Hc]]; discriminate.
  - intros [-> | ->]; reflexivity.
Qed.

Lemma duration_fields_negative (seconds : Z) :
  (seconds < 0)%Z ->
  exists hours minutes secs,
    duration_fields seconds = (hours, minutes, secs)
    /\ duration_fields (seconds `mod` 3600) = (0%Z, minutes, secs)
    /\ (hours < 0)%Z
    /\ ((seconds `mod` 3600 = 0)%Z -> minutes = 0%Z /\ secs = 0%Z).
Proof.
  intros Hneg. unfold duration_fields.
  eexists _, _, _. split; [reflexivity|].
  pose proof (Z.mod_pos_bound seconds 3600 ltac:(lia)) as Hbound.
  split; [|split].
  - rewrite Z.mod_mod by lia.
    rewrite (Z.mod_mod_divide seconds 3600 60) by (exists 60%Z; reflexivity).
    rewrite Z.div_small by lia. reflexivity.
  - apply Z.div_lt_upper_bound; lia.
  - intros Hzero. rewrite Hzero. split; [reflexivity|].
    rewrite <- (Z.mod_mod_divide seconds 3600 60) by (exists 60%Z; reflexivity).
    rewrite Hzero. reflexivity.
Qed.

(** A negative number of seconds is rendered without its hours: as ["0s"]
    when it is a multiple of 3600, and as its remainder modulo 3600
    otherwise. *)
Theorem format_duration_negative (seconds : Z) :
  (seconds < 0)%Z ->
  format_duration (Some seconds)
  = if bool_decide (seconds `mod` 3600 = 0)%Z then lit "0s"
    else format_duration (Some (seconds `mod` 3600)%Z).
Proof.
  intros Hneg.
  destruct (duration_fields_negative seconds Hneg)
    as (hours & minutes & secs & Hfields & Hfields' & Hhours & Hzero).
  unfold format_duration. rewrite Hfields.
  rewrite (bool_decide_eq_false_2 (seconds = 0%Z)) by lia.
  rewrite (bool_decide_eq_false_2 (0 < hours)%Z) by lia.
  destruct (decide (seconds `mod` 3600 = 0)%Z) as [Hmod|Hmod].
  - rewrite (bool_decide_eq_true_2 _ Hmod).
    destruct (Hzero Hmod) as [-> ->]. reflexivity.
  - rewrite !(bool_decide_eq_false_2 _ Hmod). rewrite Hfields'.
    rewrite (bool_decide_eq_false_2 (0 < 0)%Z) by lia. reflexivity.
Qed.

Lemma format_duration_negative_witness :
  format_duration (Some (-1)%Z) = lit "59m 59s"
  /\ format_duration (Some (-7200)%Z) = lit "0s".
Proof.
  split.
  - rewrite (format_duration_negative (-1)) by lia. vm_compute. reflexivity.
  - rewrite (format_duration_negative (-7200)) by lia. vm_compute. reflexivity.
Defined.

(** ** More on [sanitize_filename] *)

Section SanitizeMore.

Variables alnum space : char -> bool.

Lemma sub_spaces_from_length in_run s :
  (length (sub_spaces_from space in_run s) <= length s)%nat.
Proof.
  revert in_run. induction s as [|c s IH]; intros in_run; simpl; [lia|].
  pose proof (IH true). pose proof (IH false).
  destruct (is_space space c); [destruct in_run|]; simpl; lia.
Qed.

(** [sanitize_filename] never lengthens its argument. *)
Theorem sanitize_filename_shrinks (s : pystr) :
  (length (sanitize_filename alnum space s) <= length s)%nat.
Proof.
  unfold sanitize_filename, sub_spaces. rewrite length_take.
  pose proof (sub_spaces_from_length false (sub_invalid alnum space s)) as Hlen.
  unfold sub_invalid in Hlen at 2. rewrite length_map in Hlen. lia.
Qed.

(** When the underscore is not a whitespace character, the output of
    [sanitize_filename] contains no whitespace character. *)
Theorem sanitize_filename_no_whitespace (s : pystr) :
  space underscore = false ->
  Forall (fun c => is_space space c = false) (sanitize_filename alnum space s).
Proof.
  intros Hus.
  eapply Forall_impl; [apply (sanitize_filename_settled alnum space s Hus)|].
  intros c [Hsp _]. exact Hsp.
Qed.

(** When the underscore is not a whitespace character, the strings that
    [sanitize_filename] leaves unchanged are exactly those of at most 200
    characters, each of them a word character or a hyphen and none of them
    whitespace. *)
Theorem sanitize_filename_fixpoints (s : pystr) :
  space underscore = false ->
  sanitize_filename alnum space s = s
  <-> Forall (settled alnum space) s /\ (length s <= 200)%nat.
Proof.
  intros Hus. split.
  - intros Hfix. split.
    + rewrite <- Hfix. apply sanitize_filename_settled, Hus.
    + rewrite <- Hfix. apply sanitize_filename_length.
  - intros [Hset Hlen]. unfold sanitize_filename, sub_spaces.
    rewrite (sub_invalid_settled alnum space s Hset).
    rewrite (sub_spaces_from_settled_id alnum space false s Hset).
    apply take_ge. exact Hlen.
Qed.

End SanitizeMore.

Lemma sanitize_filename_no_whitespace_witness :
  Forall (fun c => is_space Sample.ascii_isspace c = false)
    (sanitize_filename Sample.ascii_isalnum Sample.ascii_isspace
       (lit "My  Clip! - (final).mp4")).
Proof.
  apply (sanitize_filename_no_whitespace Sample.ascii_isalnum
           Sample.ascii_isspace (lit "My  Clip! - (final).mp4")).
  reflexivity.
Defined.

Lemma sanitize_filename_fixpoints_witness :
  sanitize_filename Sample.ascii_isalnum Sample.ascii_isspace (lit "My_Clip-2")
  = lit "My_Clip-2"
  <-> Forall (settled Sample.ascii_isalnum Sample.ascii_isspace) (lit "My_Clip-2")
      /\ (length (lit "My_Clip-2") <= 200)%nat.
Proof.
  apply (sanitize_filename_fixpoints Sample.ascii_isalnum Sample.ascii_isspace
           (lit "My_Clip-2")).
  reflexivity.
Defined.

(** ** The format expression never carries the client's string *)

(** Whatever quality the request names, or none, the expression looked up
    is one of the five of the table: the client's string itself never
    becomes part of an argument vector of /download. *)
Theorem format_spec_of_range (quality : option pystr) :
  format_spec_of quality
  ∈ [lit "best[ext=mp4]/best";
     lit "worst[ext=mp4]/worst";
     lit "best[height<=720][ext=mp4]/best[height<=720]";
     lit "best[height<=480][ext=mp4]/best[height<=480]";
     lit "best[height<=360][ext=mp4]/best[height<=360]"].
Proof.
  unfold format_spec_of. case_bool_decide as Hin.
  - apply list_elem_of_fmap in Hin as (q & -> & Hq).
    unfold supported_qualities in Hq.
    repeat (apply elem_of_cons in Hq as [-> | Hq];
            [vm_compute; repeat constructor|]).
    apply elem_of_nil in Hq. contradiction.
  - vm_compute. constructor.
Qed.

(** ** The fields computed from a metadata document *)

(** The thumbnail of /info: the [url] of the last entry of a non-empty
    [thumbnails] list, even when that entry has none and the document has
    a [thumbnail]; an entry that is not an object makes the lookup raise;
    without a list, the [thumbnail] field when it is there and not empty. *)
Theorem pick_thumbnail_policy (d : list (pystr * json)) (l : list json) :
  dict_get d (lit "thumbnails") JNone = JList l ->
  (forall e, last l = Some (JDict e) ->
     pick_thumbnail (JDict d) = inr (dict_get e (lit "url") JNone))
  /\ (forall s, last l = Some (JStr s) ->
     pick_thumbnail (JDict d) = inl (AttributeError (JStr s) (lit "get")))
  /\ (l = [] ->
     pick_thumbnail (JDict d)
     = inr (py_or (dict_get d (lit "thumbnail") JNone) JNone)).
Proof.
  intros Hlist. unfold pick_thumbnail, py_get.
  cbn [mbind result_bind mret result_ret]. rewrite Hlist.
  split; [|split].
  - intros e Hlast. destruct l as [|x l]; [discriminate|].
    cbn [truthy py_last]. rewrite Hlast. reflexivity.
  - intros s Hlast. destruct l as [|x l]; [discriminate|].
    cbn [truthy py_last]. rewrite Hlast. reflexivity.
  - intros ->. cbn [truthy]. unfold py_or.
    destruct (truthy (dict_get d (lit "thumbnail") JNone)); reflexivity.
Qed.

Lemma pick_thumbnail_policy_witness :
  pick_thumbnail (JDict Scenario.thumbnails_document)
  = inr (JStr (lit "large.jpg")).
Proof.
  apply (proj1 (pick_thumbnail_policy Scenario.thumbnails_document
                  [JDict [(lit "url", JStr (lit "small.jpg"))];
                   JDict [(lit "url", JStr (lit "large.jpg"))]]
                  eq_refl)
           [(lit "url", JStr (lit "large.jpg"))]).
  reflexivity.
Defined.

(** A description that /info reports as a string has at most 503
    characters. *)
Theorem clean_description_bounded (info : json) (out : pystr) :
  clean_description info = inr (JStr out) -> (length out <= 503)%nat.
Proof.
  unfold clean_description, py_get.
  destruct info as [| | | | | |d]; try discriminate.
  cbn [mbind result_bind mret result_ret].
  unfold mret, result_ret, throw.
  destruct (dict_get d (lit "description") (JStr [])) as [|b|n|x|s|l|e];
    cbn [truthy py_len mbind result_bind]; unfold mret, result_ret, throw.
  - discriminate.
  - destruct b; discriminate.
  - destruct (negb (n =? 0)%Z); discriminate.
  - destruct x; discriminate.
  - destruct s as [|c s]; [intros [= <-]; simpl; lia|].
    cbn [negb bool_decide decide_rel mbind result_bind]. simpl negb. cbv iota.
    destruct (bool_decide (500 < length (c :: s))%nat) eqn:Hlen.
    + intros [= <-]. cbn [length]. rewrite length_app, length_take.
      change (length (lit "...")) with 3%nat. lia.
    + intros [= <-]. apply bool_decide_eq_false_1 in Hlen. lia.
  - destruct l as [|y l]; cbn [mbind result_bind]; [discriminate|].
    destruct (bool_decide (500 < length (y :: l))%nat); discriminate.
  - destruct e as [|y e]; cbn [mbind result_bind]; [discriminate|].
    destruct (bool_decide (500 < length (y :: e))%nat); discriminate.
Qed.

Lemma clean_description_bounded_witness :
  (length (replicate 500 97%N ++ lit "...") <= 503)%nat.
Proof.
  apply (clean_description_bounded
           (JDict [(lit "description", JStr (replicate 501 97))])
           (replicate 500 97 ++ lit "...")).
  vm_compute. reflexivity.
Defined.

Lemma py_or_truthy (x y : json) :
  truthy y = true -> truthy (py_or x y) = true.
Proof.
  intros Hy. unfold py_or.
  destruct (truthy x) eqn:Hx; [exact Hx | exact Hy].
Qed.

(** The descriptor that /formats builds from an entry always has the same
    nine keys, a field the entry lacks being reported as [None], and its
    quality label is never empty. *)
Theorem format_descriptor_shape (d : list (pystr * json)) :
  exists e,
    format_descriptor (JDict d) = inr (JDict e)
    /\ e.*1 = [lit "format_id"; lit "ext"; lit "quality"; lit "filesize";
               lit "vcodec"; lit "acodec"; lit "height"; lit "width";
               lit "fps"]
    /\ truthy (dict_get e (lit "quality") JNone) = true.
Proof.
  eexists. split; [reflexivity|]. split; [reflexivity|].
  match goal with
  | |- truthy (dict_get _ _ _) = true =>
      change (truthy (py_or (py_or (dict_get d (lit "format_note") JNone)
                                   (dict_get d (lit "quality") JNone))
                            (JStr (lit "Unknown"))) = true)
  end.
  apply py_or_truthy. reflexivity.
Qed.

(** An entry of the format list that is not an object makes /formats fail
    with status 500, whatever the other entries are. *)
Theorem get_formats_rejects_non_object (rt : runtime)
    (os_exec : list pystr -> option program_run) (request : DownloadRequest)
    (st : os_state) (r : program_run) (info : list (pystr * json))
    (ds : list (list (pystr * json))) (x : json) (rest : list json) :
  os_exec (dump_json_short_cmd (videoUrl request)) = Some r ->
  json_loads rt (concat (out_reads r)) = Loaded (JDict info) ->
  dict_get info (lit "formats") (JList []) = JList ((JDict <$> ds) ++ x :: rest) ->
  (forall e, x <> JDict e) ->
  get_formats rt os_exec request st
  = (inl (HTTPException 500 (exception_str rt (AttributeError x (lit "get")))),
     after_capture (dump_json_short_cmd (videoUrl request)) st).
Proof.
  intros Hrun Hjson Hformats Hx.
  assert (forall formats,
            collect_formats ((JDict <$> ds) ++ x :: rest) formats
            = inl (AttributeError x (lit "get"))) as Hcollect.
  { clear Hformats. induction ds as [|d ds IH]; intros formats.
    - simpl. destruct x as [| | | | | |e]; try reflexivity.
      destruct (Hx e eq_refl).
    - change (collect_formats ((JDict <$> d :: ds) ++ x :: rest) formats)
        with (has_codec (JDict d) ≫= fun keep : bool =>
              if keep
              then format_descriptor (JDict d) ≫= fun d' =>
                   collect_formats ((JDict <$> ds) ++ x :: rest) (formats ++ [d'])
              else collect_formats ((JDict <$> ds) ++ x :: rest) formats).
      rewrite has_codec_dict, format_descriptor_dict.
      cbn [mbind result_bind]. destruct (carries_codecb d); apply IH. }
  unfold get_formats, get_formats_body. run_handler.
  rewrite Hrun. simpl. rewrite Hjson. simpl.
  unfold formats_response, py_get, py_iter, mbind, result_bind, mret,
    result_ret.
  rewrite Hformats, Hcollect. reflexivity.
Qed.

Lemma get_formats_rejects_non_object_witness :
  get_formats Scenario.python Scenario.odd_tool Sample.request_720p boot
  = (inl (HTTPException 500
            (lit "'str' object has no attribute 'get'")),
     after_capture (dump_json_short_cmd (videoUrl Sample.request_720p)) boot).
Proof.
  apply (get_formats_rejects_non_object Scenario.python Scenario.odd_tool
           Sample.request_720p boot
           {| out_reads := [Scenario.odd_text]; err_data := []; exit_code := 0 |}
           Scenario.odd_document
           [[(lit "format_id", JStr (lit "18"))]] (JStr (lit "x")) []).
  - reflexivity.
  - vm_compute. reflexivity.
  - reflexivity.
  - discriminate.
Defined.

(** ** What the handlers start *)

Lemma spawned_app (t1 t2 : list syscall) :
  spawned (t1 ++ t2) = spawned t1 ++ spawned t2.
Proof. apply omap_app. Qed.

Ltac finish_spawned :=
  simpl; rewrite ?spawned_app; simpl; rewrite <- ?app_assoc, ?app_nil_r;
  reflexivity.

(** Whatever their outcome, the handlers of /info, /download and /formats
    start exactly one process, the metadata query: nothing is started
    twice, and /download starts nothing else before it has answered. *)
Theorem handlers_start_one_process (rt : runtime)
    (os_exec : list pystr -> option program_run) (request : DownloadRequest)
    (st : os_state) :
  spawned (calls (snd (get_video_info rt os_exec request st)))
  = spawned (calls st) ++ [dump_json_cmd (videoUrl request)]
  /\ spawned (calls (snd (download_video rt os_exec request st)))
     = spawned (calls st) ++ [dump_json_cmd (videoUrl request)]
  /\ spawned (calls (snd (get_formats rt os_exec request st)))
     = spawned (calls st) ++ [dump_json_short_cmd (videoUrl request)].
Proof.
  split; [|split].
  - unfold get_video_info, get_video_info_body. run_handler.
    destruct (os_exec _) as [r|]; simpl; [|finish_spawned].
    case_bool_decide; simpl.
    + destruct (bytes_decode rt _); simpl; finish_spawned.
    + destruct (json_loads rt _) as [info| |]; simpl; try finish_spawned.
      destruct (info_response info) as [e|kwargs]; simpl;
        [destruct e; finish_spawned|].
      destruct (new_InfoResponse rt kwargs) as [e|resp]; simpl; [destruct e|];
        finish_spawned.
  - unfold download_video, download_video_body. run_handler.
    destruct (os_exec _) as [r|]; simpl; [|finish_spawned].
    case_bool_decide; simpl.
    + destruct (bytes_decode rt _); simpl; finish_spawned.
    + destruct (json_loads rt _) as [info| |]; simpl; try finish_spawned.
      destruct (sanitized_title rt info) as [e|t]; simpl;
        [destruct e; finish_spawned|].
      destruct (py_get info "ext" _) as [e|ext]; simpl;
        [destruct e; finish_spawned|].
      destruct (new_StreamingResponse _ _ _) as [e|resp]; simpl; [destruct e|];
        finish_spawned.
  - unfold get_formats, get_formats_body. run_handler.
    destruct (os_exec _) as [r|]; simpl; [|finish_spawned].
    destruct (json_loads rt _) as [info| |]; simpl; try finish_spawned.
    destruct (formats_response info) as [e|resp]; simpl; finish_spawned.
Qed.

(** /download/format starts its streaming process before it answers, as
    soon as the metadata query has written a document with a title (or
    without one), whatever the exit code of the query was. *)
Theorem download_format_starts_stream (rt : runtime)
    (os_exec : list pystr -> option program_run) (request : DownloadRequest)
    (format_id : pystr) (st : os_state) (r : program_run)
    (d : list (pystr * json)) (t : pystr) :
  os_exec (dump_json_short_cmd (videoUrl request)) = Some r ->
  json_loads rt (concat (out_reads r)) = Loaded (JDict d) ->
  dict_get d (lit "title") (JStr (lit "video")) = JStr t ->
  spawned (calls (snd (download_format rt os_exec request format_id st)))
  = spawned (calls st)
    ++ [dump_json_short_cmd (videoUrl request);
        download_format_cmd (videoUrl request) format_id].
Proof.
  intros Hrun Hjson Htitle.
  unfold download_format, download_format_body. run_handler.
  rewrite Hrun. simpl. rewrite Hjson. simpl.
  unfold sanitized_title, py_get, expect_str, mbind, result_bind, mret,
    result_ret.
  rewrite Htitle. simpl.
  destruct (os_exec (download_format_cmd _ _)); [|finish_spawned].
  simpl. destruct (new_StreamingResponse _ _ _); finish_spawned.
Qed.

Lemma download_format_starts_stream_witness :
  spawned (calls (snd (download_format Sample.python Scenario.grumbling_tool
                         Sample.request_720p (lit "18") boot)))
  = spawned (calls boot)
    ++ [dump_json_short_cmd (videoUrl Sample.request_720p);
        download_format_cmd (videoUrl Sample.request_720p) (lit "18")].
Proof.
  apply (download_format_starts_stream Sample.python Scenario.grumbling_tool
           Sample.request_720p (lit "18") boot
           {| out_reads := [Sample.clip_text]; err_data := []; exit_code := 1 |}
           [(lit "title", JStr (lit "My Clip!")); (lit "ext", JStr (lit "mp4"))]
           (lit "My Clip!")).
  - reflexivity.
  - vm_compute. reflexivity.
  - reflexivity.
Defined.

(** ** Malformed metadata *)



(** ** Error statuses *)

(** /info, /download/format and /formats never answer with an error
    status other than 500: whatever goes wrong in them, a client sees 500
    and never 400. *)
Theorem failures_are_500 (rt : runtime)
    (os_exec : list pystr -> option program_run) (request : DownloadRequest)
    (format_id : pystr) (st : os_state) :
  ok_or_500 (fst (get_video_info rt os_exec request st))
  /\ ok_or_500 (fst (download_format rt os_exec request format_id st))
  /\ ok_or_500 (fst (get_formats rt os_exec request st)).
Proof.
  split; [|split].
  - unfold get_video_info, try_except.
    destruct (get_video_info_body rt os_exec request st) as [[e|resp] st'];
      [destruct e|]; exact I.
  - unfold download_format, try_except.
    destruct (download_format_body rt os_exec request format_id st)
      as [[e|resp] st']; exact I.
  - unfold get_formats, try_except.
    destruct (get_formats_body rt os_exec request st) as [[e|resp] st'];
      exact I.
Qed.

(** An error of /download has status 500, or status 400; the latter only
    when the metadata query exited with a non-zero code, and then with the
    stripped text of its standard error as detail. *)
Theorem download_video_error_statuses (rt : runtime)
    (os_exec : list pystr -> option program_run) (request : DownloadRequest)
    (st st' : os_state) (e : exception) :
  download_video rt os_exec request st = (inl e, st') ->
  (exists detail, e = HTTPException 500 detail)
  \/ (exists r text,
        os_exec (dump_json_cmd (videoUrl request)) = Some r
        /\ exit_code r <> 0%Z
        /\ bytes_decode rt (err_data r) = Some text
        /\ e = HTTPException 400
                 (lit "yt-dlp error: " ++ strip (isspace rt) text)).
Proof.
  unfold download_video, download_video_body. run_handler.
  destruct (os_exec _) as [r|] eqn:Hrun; simpl;
    [|intros [= <- <-]; left; eauto].
  case_bool_decide as Hcode; simpl.
  - destruct (bytes_decode rt _) as [text|] eqn:Htext; simpl;
      intros [= <- <-]; [right; eauto 10 | left; eauto].
  - destruct (json_loads rt _) as [info| |]; simpl;
      try (intros [= <- <-]; left; eauto).
    unfold sanitized_title, py_get, expect_str, mbind, result_bind, mret,
      result_ret, throw.
    destruct info as [| | | | | |d]; simpl;
      try (intros [= <- <-]; left; eauto).
    destruct (dict_get d (lit "title") (JStr (lit "video"))); simpl;
      try (intros [= <- <-]; left; eauto).
    unfold new_StreamingResponse, throw.
    destruct (first_unencodable _); simpl;
      first [discriminate | intros [= <- <-]; left; eauto].
Qed.

Lemma download_video_error_statuses_witness :
  (exists detail, HTTPException 400 (lit "yt-dlp error: ERROR: Unsupported URL")
                  = HTTPException 500 detail)
  \/ (exists r text,
        Sample.failing_tool (dump_json_cmd (videoUrl Sample.request_720p)) = Some r
        /\ exit_code r <> 0%Z
        /\ bytes_decode Sample.python (err_data r) = Some text
        /\ HTTPException 400 (lit "yt-dlp error: ERROR: Unsupported URL")
           = HTTPException 400
               (lit "yt-dlp error: " ++ strip (isspace Sample.python) text)).
Proof.
  apply (download_video_error_statuses Sample.python Sample.failing_tool
           Sample.request_720p boot
           (after_capture (dump_json_cmd (videoUrl Sample.request_720p)) boot)).
  vm_compute. reflexivity.
Defined.

(** ** [health_check] *)

(** [health_check] never fails and always reports the status ["healthy"]:
    when the tool cannot be started or its output cannot be decoded, the
    version is ["not found"]; otherwise it is the stripped standard output
    of the tool, whatever its exit code. One process is started. *)
Theorem health_check_always_healthy (rt : runtime)
    (os_exec : list pystr -> option program_run)
    (text_mode : bytes -> option pystr) (sys_version : pystr)
    (st : os_state) :
  fst (health_check rt os_exec text_mode sys_version st)
  = inr (JDict
      [(lit "status", JStr (lit "healthy"));
       (lit "yt-dlp_version", JStr (reported_version rt os_exec text_mode));
       (lit "python_version", JStr sys_version)])
  /\ spawned (calls (snd (health_check rt os_exec text_mode sys_version st)))
     = spawned (calls st) ++ [health_check_cmd].
Proof.
  unfold health_check, run_stdout, reported_version. run_handler.
  destruct (os_exec health_check_cmd) as [r|]; simpl;
    [|split; [reflexivity | finish_spawned]].
  destruct (text_mode (concat (out_reads r))) as [out|]; simpl;
    [|split; [reflexivity | finish_spawned]].
  destruct (text_mode (err_data r)); simpl;
    (split; [reflexivity | finish_spawned]).
Qed.

(** ** More on the streaming bodies *)

Section RelayMore.

Variable os_exec : list pystr -> option program_run.

Lemma stream_output_resume (n : nat) (p : process) (st : os_state) :
  stream_response os_exec n (StreamOutput (SO_at_yield p)) st
  = match unread p with
    | [] => (inr (StreamOutput SO_closed), read_logged p st)
    | chunk :: rest =>
        if bool_decide (chunk = [])
        then (inr (StreamOutput SO_closed), read_logged p st)
        else match n with
             | O => (inr (StreamOutput SO_closed), read_logged p st)
             | S n' =>
                 stream_response os_exec n'
                   (StreamOutput
                      (SO_at_yield
                         {| pid := pid p; run := run p; unread := rest |}))
                   (read_logged p st)
             end
    end.
Proof.
  destruct p as [i r [|chunk rest]]; destruct n as [|n]; simpl;
    unfold stream_output_loop, stdout_read, log, mbind, M_bind, mret, M_ret;
    simpl; try reflexivity;
    (destruct (decide (chunk = [])) as [Hnil|Hchunk];
     [ rewrite !bool_decide_eq_true_2 by exact Hnil; reflexivity
     | rewrite !bool_decide_eq_false_2 by exact Hchunk; reflexivity ]).
Qed.

Lemma stream_output_reads (n : nat) : forall (p : process) (st : os_state),
  Forall (fun chunk => chunk <> []) (unread p) ->
  stream_response os_exec n (StreamOutput (SO_at_yield p)) st
  = (inr (StreamOutput SO_closed),
     {| next_pid := next_pid st;
        calls := calls st
                 ++ replicate (S (n `min` length (unread p))) (Read (pid p)) |}).
Proof.
  induction n as [|n IH]; intros p st Hne;
    rewrite stream_output_resume;
    (destruct (unread p) as [|chunk rest] eqn:Hunread; [reflexivity|]);
    apply Forall_cons in Hne as [Hchunk Hrest];
    rewrite bool_decide_eq_false_2 by exact Hchunk.
  - reflexivity.
  - rewrite IH by exact Hrest. simpl. rewrite <- app_assoc. reflexivity.
Qed.

(** The body of a /download/format response only ever reads from its
    process. When the disconnect of the client is noticed after [n]
    chunks were sent, the process has been read from [n + 1] times; when
    the client stays, once per chunk and once more for the end of the
    stream. The exit of the process is never awaited, not even at the end
    of the stream. *)
Theorem stream_output_never_waits (n : nat) (p : process) (st : os_state) :
  Forall (fun chunk => chunk <> []) (unread p) ->
  stream_response os_exec n (StreamOutput (SO_created p)) st
  = (inr (StreamOutput SO_closed),
     {| next_pid := next_pid st;
        calls := calls st
                 ++ replicate (S (n `min` length (unread p))) (Read (pid p)) |}).
Proof.
  intros Hne. rewrite <- (stream_output_reads n p st Hne).
  destruct n; reflexivity.
Qed.

(** A client of /download whose disconnect is noticed after [n] chunks
    were sent, before the end of the stream: the streaming process has
    been started, also when no chunk at all was sent, and read from
    [n + 1] times; nothing else is called on it, and its exit is not
    awaited. *)
Theorem stream_yt_dlp_disconnect (url quality : pystr) (r : program_run)
    (n : nat) (st : os_state) :
  os_exec (stream_yt_dlp_cmd url quality) = Some r ->
  Forall (fun chunk => chunk <> []) (out_reads r) ->
  (n < length (out_reads r))%nat ->
  stream_response os_exec n (StreamYtDlp (SYD_created url quality)) st
  = (inr (StreamYtDlp SYD_closed),
     {| next_pid := S (next_pid st);
        calls := (calls st ++ [Spawn (stream_yt_dlp_cmd url quality)])
                   ++ replicate (S n) (Read (next_pid st)) |}).
Proof.
  intros Hrun Hne Hlen.
  rewrite (stream_response_start os_exec n url quality r st Hrun).
  rewrite relay_until_disconnect by (simpl; first [exact Hne | lia]).
  reflexivity.
Qed.

(** The loop that sends the chunks makes the calls of [stream_response]
    and leaves the body in the same state. *)
Lemma send_body_stream_response (n : nat) : forall (b : body_iterator)
    (st : os_state),
  stream_response os_exec n b st
  = (let '(sent, st') := send_body os_exec n b st in
     (match sent with inl e => inl e | inr (_, b') => inr b' end, st')).
Proof.
  induction n as [|n IH]; intros b st; simpl; unfold mbind, M_bind;
    destruct (body_next os_exec b st) as [[e|[[chunk|] b']] st1];
    try reflexivity.
  - destruct b'; reflexivity.
  - rewrite IH.
    destruct (send_body os_exec n b' st1) as [[e|[rest b'']] st2]; reflexivity.
Qed.

Lemma send_body_resume (n : nat) : forall (p : process) (st : os_state),
  Forall (fun chunk => chunk <> []) (unread p) ->
  fst (send_body os_exec n (StreamYtDlp (SYD_at_yield p)) st)
  = inr (take n (unread p), StreamYtDlp SYD_closed).
Proof.
  induction n as [|n IH]; intros p st Hne;
    destruct p as [i r [|chunk rest]]; simpl;
    unfold stream_yt_dlp_loop, stdout_read, wait, log, mbind, M_bind, mret,
      M_ret; simpl; try reflexivity;
    apply Forall_cons in Hne as [Hchunk Hrest];
    rewrite bool_decide_eq_false_2 by exact Hchunk; simpl; [reflexivity|].
  specialize (IH {| pid := i; run := r; unread := rest |}
                 {| next_pid := next_pid st; calls := calls st ++ [Read i] |}
                 Hrest).
  destruct (send_body os_exec n _ _) as [[e|[sent b]] st1];
    simpl in IH; [discriminate|].
  injection IH as -> ->. reflexivity.
Qed.

(** A client of /download that is sent [n] chunks receives the first [n]
    chunks the process wrote, in the order it wrote them; a client that
    stays receives the whole standard output, byte for byte. *)
Theorem send_body_in_order (url quality : pystr) (r : program_run) (n : nat)
    (st : os_state) :
  os_exec (stream_yt_dlp_cmd url quality) = Some r ->
  Forall (fun chunk => chunk <> []) (out_reads r) ->
  fst (send_body os_exec n (StreamYtDlp (SYD_created url quality)) st)
  = inr (take n (out_reads r), StreamYtDlp SYD_closed)
  /\ ((length (out_reads r) <= n)%nat ->
      fst (send_body os_exec n (StreamYtDlp (SYD_created url quality)) st)
      = inr (out_reads r, StreamYtDlp SYD_closed)).
Proof.
  intros Hrun Hne.
  assert (fst (send_body os_exec n (StreamYtDlp (SYD_created url quality)) st)
          = inr (take n (out_reads r), StreamYtDlp SYD_closed)) as Hsent;
    [|split; [exact Hsent | intros Hlen; rewrite Hsent, take_ge by exact Hlen;
                            reflexivity]].
  pose proof (send_body_resume n
                {| pid := next_pid st; run := r; unread := out_reads r |}
                {| next_pid := S (next_pid st);
                   calls := calls st ++ [Spawn (stream_yt_dlp_cmd url quality)] |}
                Hne) as Hresume.
  destruct n as [|n]; simpl in Hresume |- *;
    unfold create_subprocess_exec, log, fresh_pid, mbind, M_bind, mret, M_ret
      in Hresume |- *;
    simpl in Hresume |- *; rewrite Hrun; simpl; exact Hresume.
Qed.

End RelayMore.

Lemma stream_output_never_waits_witness :
  let p := {| pid := 1;
              run := {| out_reads := Sample.ten_chunks; err_data := [];
                        exit_code := 0 |};
              unread := Sample.ten_chunks |} in
  stream_response Sample.working_tool 20 (StreamOutput (SO_created p)) boot
  = (inr (StreamOutput SO_closed),
     {| next_pid := 0; calls := replicate 11 (Read 1) |})
  /\ stream_response Sample.working_tool 2 (StreamOutput (SO_created p)) boot
     = (inr (StreamOutput SO_closed),
        {| next_pid := 0; calls := replicate 3 (Read 1) |}).
Proof.
  split.
  - apply (stream_output_never_waits Sample.working_tool 20
             {| pid := 1;
                run := {| out_reads := Sample.ten_chunks; err_data := [];
                          exit_code := 0 |};
                unread := Sample.ten_chunks |} boot).
    vm_compute. repeat constructor; discriminate.
  - apply (stream_output_never_waits Sample.working_tool 2
             {| pid := 1;
                run := {| out_reads := Sample.ten_chunks; err_data := [];
                          exit_code := 0 |};
                unread := Sample.ten_chunks |} boot).
    vm_compute. repeat constructor; discriminate.
Defined.

Lemma stream_yt_dlp_disconnect_witness :
  let url := videoUrl Sample.request_720p in
  let quality := lit "best[ext=mp4]/best" in
  stream_response Sample.working_tool 3
    (StreamYtDlp (SYD_created url quality)) boot
  = (inr (StreamYtDlp SYD_closed),
     {| next_pid := 1;
        calls := [Spawn (stream_yt_dlp_cmd url quality)]
                   ++ replicate 4 (Read 0) |}).
Proof.
  apply (stream_yt_dlp_disconnect Sample.working_tool
           (videoUrl Sample.request_720p) (lit "best[ext=mp4]/best")
           {| out_reads := Sample.ten_chunks; err_data := []; exit_code := 0 |}
           3 boot).
  - reflexivity.
  - vm_compute. repeat constructor; discriminate.
  - vm_compute. lia.
Defined.

Lemma send_body_in_order_witness :
  let url := videoUrl Sample.request_720p in
  let quality := lit "best[ext=mp4]/best" in
  fst (send_body Sample.working_tool 2
         (StreamYtDlp (SYD_created url quality)) boot)
  = inr (take 2 Sample.ten_chunks, StreamYtDlp SYD_closed).
Proof.
  apply (send_body_in_order Sample.working_tool
           (videoUrl Sample.request_720p) (lit "best[ext=mp4]/best")
           {| out_reads := Sample.ten_chunks; err_data := []; exit_code := 0 |}
           2 boot).
  - reflexivity.
  - vm_compute. repeat constructor; discriminate.
Defined.

(** ** A title that is not a string *)

(** When the document has a [title] that is not a string, [null]
    included, /download fails with status 500 once the metadata query has
    run: the default title is used only when the key is missing. *)
Theorem download_video_rejects_non_string_title (rt : runtime)
    (os_exec : list pystr -> option program_run) (request : DownloadRequest)
    (st : os_state) (r : program_run) (d : list (pystr * json)) (v : json) :
  os_exec (dump_json_cmd (videoUrl request)) = Some r ->
  exit_code r = 0%Z ->
  json_loads rt (concat (out_reads r)) = Loaded (JDict d) ->
  dict_get d (lit "title") (JStr (lit "video")) = v ->
  (forall s, v <> JStr s) ->
  download_video rt os_exec request st
  = (inl (HTTPException 500 (exception_str rt (TypeError v))),
     after_capture (dump_json_cmd (videoUrl request)) st).
Proof.
  intros Hrun Hcode Hjson Htitle Hv.
  unfold download_video, download_video_body. run_handler.
  rewrite Hrun. simpl.
  rewrite bool_decide_eq_false_2 by (intros Hne; exact (Hne Hcode)).
  rewrite Hjson. simpl.
  unfold sanitized_title, py_get, expect_str, mbind, result_bind, mret,
    result_ret, throw.
  rewrite Htitle.
  destruct v as [| | | |s| |]; try reflexivity. destruct (Hv s eq_refl).
Qed.

Lemma download_video_rejects_non_string_title_witness :
  download_video Scenario.python Scenario.odd_tool Sample.request_720p boot
  = (inl (HTTPException 500 (lit "TypeError")),
     after_capture (dump_json_cmd (videoUrl Sample.request_720p)) boot).
Proof.
  apply (download_video_rejects_non_string_title Scenario.python
           Scenario.odd_tool Sample.request_720p boot
           {| out_reads := [Scenario.odd_text]; err_data := []; exit_code := 0 |}
           Scenario.odd_document JNone).
  - reflexivity.
  - reflexivity.
  - vm_compute. reflexivity.
  - reflexivity.
  - discriminate.
Defined.

(** ** A title outside latin-1 *)

Lemma latin1_app (s t : pystr) : latin1 (s ++ t) = latin1 s && latin1 t.
Proof. apply forallb_app. Qed.

Lemma new_StreamingResponse_wide (content : body_iterator)
    (media_type name value : pystr) (rest : list (pystr * pystr)) :
  latin1 name = true ->
  latin1 value = false ->
  new_StreamingResponse content media_type ((name, value) :: rest)
  = inl (UnicodeEncodeError value).
Proof.
  intros Hname Hvalue. unfold new_StreamingResponse. cbn [first_unencodable].
  rewrite Hname, Hvalue. reflexivity.
Qed.

(** When the sanitized title of the document has a character above
    U+00FF, the [Content-Disposition] header of /download cannot be
    encoded: the request fails with status 500 once the metadata query has
    run, and nothing is streamed. *)
Theorem download_video_rejects_wide_title (rt : runtime)
    (os_exec : list pystr -> option program_run) (request : DownloadRequest)
    (st : os_state) (r : program_run) (d : list (pystr * json)) (s : pystr) :
  os_exec (dump_json_cmd (videoUrl request)) = Some r ->
  exit_code r = 0%Z ->
  json_loads rt (concat (out_reads r)) = Loaded (JDict d) ->
  dict_get d (lit "title") (JStr (lit "video")) = JStr s ->
  latin1 (sanitize_filename (isalnum rt) (isspace rt) s) = false ->
  download_video rt os_exec request st
  = (inl (HTTPException 500
            (exception_str rt
               (UnicodeEncodeError
                  (lit "attachment; filename=" ++ [dquote]
                     ++ (sanitize_filename (isalnum rt) (isspace rt) s
                           ++ lit ".mp4")
                     ++ [dquote])))),
     after_capture (dump_json_cmd (videoUrl request)) st).
Proof.
  intros Hrun Hcode Hjson Htitle Hwide.
  unfold download_video, download_video_body. run_handler.
  rewrite Hrun. simpl.
  rewrite bool_decide_eq_false_2 by (intros Hne; exact (Hne Hcode)).
  rewrite Hjson. simpl.
  unfold sanitized_title, py_get, expect_str, mbind, result_bind, mret,
    result_ret, throw.
  rewrite Htitle.
  rewrite new_StreamingResponse_wide; [reflexivity | reflexivity |].
  change (latin1 (lit "attachment; filename=" ++ [dquote]
                    ++ (sanitize_filename (isalnum rt) (isspace rt) s
                          ++ lit ".mp4")
                    ++ [dquote]) = false).
  rewrite !latin1_app, Hwide. reflexivity.
Qed.

Lemma download_video_rejects_wide_title_witness :
  download_video Scenario.cjk_python Scenario.cjk_tool Sample.request_720p boot
  = (inl (HTTPException 500
            (lit "'latin-1' codec can't encode characters in position 22-23: ordinal not in range(256)")),
     after_capture (dump_json_cmd (videoUrl Sample.request_720p)) boot).
Proof.
  apply (download_video_rejects_wide_title Scenario.cjk_python
           Scenario.cjk_tool Sample.request_720p boot
           {| out_reads := [Scenario.cjk_text]; err_data := []; exit_code := 0 |}
           Scenario.cjk_document [26085; 26412]).
  - reflexivity.
  - reflexivity.
  - vm_compute. reflexivity.
  - reflexivity.
  - vm_compute. reflexivity.
Defined.
